(** * File dispatcher tool: a shallow embedding of
      [api/core/agent/tools/file_dispatcher.py]

    The Python class [FileDispatcherTool] keeps a catalog of files indexed by
    filename and a routing table [{tool_name: {param_name: file}}] that it
    shares with its caller.  [_invoke] is a generator: it yields messages and
    may stop early.  The embedding keeps

    - the values a tool parameter can take, those of a JSON document,
    - the dictionaries as finite maps,
    - the routing table and its inner dictionaries as objects in a store,
      because the caller and the tool hold references to the same
      dictionaries and [_invoke] writes into an inner dictionary in place,
    - the generator as a small monad that collects the yielded messages,
      threads the store, and records an early [return] or a raised
      exception; a run is the generator consumed to its end. *)

From Stdlib Require Import Ascii.
From stdpp Require Import base option list strings pretty gmap fin_maps.

(** ** Python values reaching the tool *)

(** [tool_parameters: dict[str, Any]] is filled from the arguments of a tool
    call, a JSON object: a parameter is null, a string, a boolean, a number,
    an array or an object.  A float, a list and a dict are kept by what the
    code can read of them: their truth value (non-zero, non-empty) and their
    text [str(v)].  A missing key is not a value; it is the dictionary lookup
    that is [None]. *)
Inductive PyVal : Type :=
  | VNone
  | VStr (s : string)
  | VBool (b : bool)
  | VInt (z : Z)
  | VFloat (nonzero : bool) (text : string)
  | VList (nonempty : bool) (text : string)
  | VDict (nonempty : bool) (text : string).

#[global] Instance PyVal_eq_dec : EqDecision PyVal.
Proof. solve_decision. Defined.

(** Truth value: [not v] is its negation. *)
Definition truthy (v : PyVal) : bool :=
  match v with
  | VNone => false
  | VStr s => negb (bool_decide (s = ""))
  | VBool b => b
  | VInt z => negb (bool_decide (z = 0%Z))
  | VFloat nonzero _ => nonzero
  | VList nonempty _ => nonempty
  | VDict nonempty _ => nonempty
  end.

(** [type(v).__name__] *)
Definition type_name (v : PyVal) : string :=
  match v with
  | VNone => "NoneType"
  | VStr _ => "str"
  | VBool _ => "bool"
  | VInt _ => "int"
  | VFloat _ _ => "float"
  | VList _ _ => "list"
  | VDict _ _ => "dict"
  end.

(** Exceptions that the modelled statements can raise. *)
Inductive PyExn : Type :=
  | AttributeError (msg : string)
  | KeyError (key : string)
  | TypeError (msg : string).

(** ** Strings

    A [string] is a sequence of code points below 256.  [str.strip()] without
    argument removes the characters for which [str.isspace] holds; below 256
    those are U+0009..U+000D, U+001C..U+0020, U+0085 and U+00A0. *)
Definition isspace (c : ascii) : bool :=
  let n := nat_of_ascii c in
  ((9 <=? n) && (n <=? 13)) || ((28 <=? n) && (n <=? 32))
  || (n =? 133) || (n =? 160).

Fixpoint lstrip (s : string) : string :=
  match s with
  | EmptyString => EmptyString
  | String c s' => if isspace c then lstrip s' else s
  end.

Fixpoint rstrip (s : string) : string :=
  match s with
  | EmptyString => EmptyString
  | String c s' =>
      let r := rstrip s' in
      if isspace c && bool_decide (r = "") then "" else String c r
  end.

Definition strip (s : string) : string := rstrip (lstrip s).

(** [s.startswith(p)] *)
Definition startswith (s p : string) : bool := String.prefix p s.

(** [s[n:]] *)
Fixpoint slice_from (n : nat) (s : string) : string :=
  match n, s with
  | O, _ => s
  | S n', String _ s' => slice_from n' s'
  | S _, EmptyString => EmptyString
  end.

(** ** Files *)

(** Modelled from the spec: the class [File] of [core.file] is imported, not
    defined, by the dispatcher.  The dispatcher reads [filename] (a string,
    or [None], which it guards with [or ""]), [type] and [size]; an instance
    is an ordinary object and therefore true in a condition. *)
Record File : Type := mkFile {
  filename : option string;
  type : option string;
  size : option Z;
}.

#[global] Instance File_eq_dec : EqDecision File.
Proof. solve_decision. Defined.

(** ** Messages *)

(** A value stored in the [meta] dictionary of a message. *)
Inductive MetaVal : Type :=
  | MFile (f : File)
  | MStr (s : string).

#[global] Instance MetaVal_eq_dec : EqDecision MetaVal.
Proof. solve_decision. Defined.

(** Modelled from the spec: [ToolInvokeMessage] and the base class method
    [create_text_message] are imported, not defined, by the dispatcher.  A
    diagnostic is a text message with its text; an outcome is a message of
    type [FILE], which carries its [meta] dictionary. *)
Inductive ToolInvokeMessage : Type :=
  | TextMessage (text : string)
  | FileMessage (meta : gmap string MetaVal).

Definition create_text_message (text : string) : ToolInvokeMessage :=
  TextMessage text.

(** ** The store and the tool object *)

Definition loc := positive.

(** The mapping a routing table denotes: [dict[str, dict[str, File]]] read
    through its references. *)
Abbreviation RoutingTable := (gmap string (gmap string File)).

(** The dictionaries that exist, by address: the routing tables, which hold
    under each tool name a reference to an inner dictionary, and the inner
    dictionaries, each kind with its own addresses.  Two tool names, or two
    tables, can hold the same reference. *)
Record Heap : Type := mkHeap {
  tables : gmap loc (gmap string loc);
  dicts : gmap loc (gmap string File);
}.

Record FileDispatcherTool : Type := mkTool {
  files : list File;
  file_map : gmap (option string) File;
  tool_file_map : loc;
}.

Record State : Type := mkState {
  self : FileDispatcherTool;
  heap : Heap;
}.

(** [{}] as a routing table: a new dictionary at an address not in use. *)
Definition alloc (h : Heap) : loc * Heap :=
  let l := fresh (dom (tables h)) in
  (l, {| tables := <[l := ∅]> (tables h); dicts := dicts h |}).

(** ** Construction *)

(** [{f.filename: f for f in files}]: a later file replaces an earlier one
    with the same filename. *)
Definition index_files (fs : list File) : gmap (option string) File :=
  foldl (λ m f, <[filename f := f]> m) ∅ fs.

(** [tool_file_map or {}]: [None] and an empty dictionary are both false, a
    dictionary with an entry is true.  A reference held by a caller is live;
    for an address outside the store the definition reads an empty
    dictionary. *)
Definition or_new_dict (tool_file_map : option loc) (h : Heap) : loc * Heap :=
  match tool_file_map with
  | None => alloc h
  | Some l =>
      if bool_decide (default ∅ (tables h !! l) = ∅) then alloc h else (l, h)
  end.

(** [FileDispatcherTool.__init__(files, tool_file_map)]; the entity and the
    runtime set up afterwards do not touch the three fields. *)
Definition __init__ (fs : list File) (tool_file_map : option loc) (h : Heap)
  : State :=
  let '(l, h') := or_new_dict tool_file_map h in
  {| self := {| files := fs; file_map := index_files fs; tool_file_map := l |};
     heap := h' |}.

(** ** The generator monad *)

(** How a generator body, or a part of it, ends: with a value (control goes
    on), with [return], or with an exception. *)
Inductive Ending (A : Type) : Type :=
  | Value (a : A)
  | Returned
  | Raised (e : PyExn).
Arguments Value {A} a.
Arguments Returned {A}.
Arguments Raised {A} e.

Record Run (A : Type) : Type := mkRun {
  yielded : list ToolInvokeMessage;
  ending : Ending A;
  final : State;
}.
Arguments mkRun {A} _ _ _.
Arguments yielded {A} _.
Arguments ending {A} _.
Arguments final {A} _.

Definition Gen (A : Type) : Type := State → Run A.

#[global] Instance Gen_ret : MRet Gen := λ A a st, mkRun [] (Value a) st.

#[global] Instance Gen_bind : MBind Gen := λ A B f m st,
  let r := m st in
  match ending r with
  | Value a =>
      let r' := f a (final r) in
      mkRun (yielded r ++ yielded r') (ending r') (final r')
  | Returned => mkRun (yielded r) Returned (final r)
  | Raised e => mkRun (yielded r) (Raised e) (final r)
  end.

Definition yield (m : ToolInvokeMessage) : Gen unit :=
  λ st, mkRun [m] (Value tt) st.

Definition return_ {A} : Gen A := λ st, mkRun [] Returned st.

Definition raise {A} (e : PyExn) : Gen A := λ st, mkRun [] (Raised e) st.

Definition get_self : Gen FileDispatcherTool :=
  λ st, mkRun [] (Value (self st)) st.

(** Reading and writing the dictionary behind [self.tool_file_map], and an
    inner dictionary behind a reference. *)
Definition load_table : Gen (gmap string loc) :=
  λ st, mkRun []
          (Value (default ∅ (tables (heap st) !! tool_file_map (self st)))) st.

Definition store_table (d : gmap string loc) : Gen unit :=
  λ st, mkRun [] (Value tt)
          {| self := self st;
             heap := {| tables := <[tool_file_map (self st) := d]>
                                    (tables (heap st));
                        dicts := dicts (heap st) |} |}.

Definition load_dict (l : loc) : Gen (gmap string File) :=
  λ st, mkRun [] (Value (default ∅ (dicts (heap st) !! l))) st.

Definition store_dict (l : loc) (d : gmap string File) : Gen unit :=
  λ st, mkRun [] (Value tt)
          {| self := self st;
             heap := {| tables := tables (heap st);
                        dicts := <[l := d]> (dicts (heap st)) |} |}.

(** [{}] as an inner dictionary: a new dictionary at an address not in use. *)
Definition new_dict : Gen loc :=
  λ st, let l := fresh (dom (dicts (heap st))) in
        mkRun [] (Value l)
          {| self := self st;
             heap := {| tables := tables (heap st);
                        dicts := <[l := ∅]> (dicts (heap st)) |} |}.

(** [v.strip()] on a parameter value: only a [str] has the attribute. *)
Definition py_strip (v : PyVal) : Gen string :=
  match v with
  | VStr s => mret (strip s)
  | _ => raise (AttributeError
                  ("'" +:+ type_name v +:+ "' object has no attribute 'strip'"))
  end.

(** The formatted value of [v] inside an f-string, [str(v)]. *)
Definition py_format (v : PyVal) : string :=
  match v with
  | VNone => "None"
  | VStr s => s
  | VBool b => if b then "True" else "False"
  | VInt z => pretty z
  | VFloat _ text => text
  | VList _ text => text
  | VDict _ text => text
  end.

(** ** [_invoke] *)

(** [d.get(k)] and [d.get(k, dflt)] on [tool_parameters] *)
Definition dict_get (d : gmap string PyVal) (k : string) : PyVal :=
  default VNone (d !! k).

Definition dict_get_default (d : gmap string PyVal) (k : string) (dflt : PyVal)
  : PyVal :=
  default dflt (d !! k).

(** [self.file_map.get(k)]: the key is hashed first, and a list or a dict is
    unhashable; a boolean or a number is equal to no filename. *)
Definition file_map_get (m : gmap (option string) File) (k : PyVal)
  : Gen (option File) :=
  match k with
  | VNone => mret (m !! None)
  | VStr s => mret (m !! Some s)
  | VBool _ | VInt _ | VFloat _ _ => mret None
  | VList _ _ | VDict _ _ =>
      raise (TypeError ("unhashable type: '" +:+ type_name k +:+ "'"))
  end.

Definition self_meta (file : File) : gmap string MetaVal :=
  {[ "file" := MFile file; "target" := MStr "self" ]}.

Definition tool_meta (file : File) (tool_name param_name : string)
  : gmap string MetaVal :=
  {[ "file" := MFile file; "target_tool" := MStr tool_name;
     "parameter_name" := MStr param_name ]}.

(** Lines 160-163: remove the [functions.] prefix if present. *)
Definition remove_prefix (tool_name : string) : Gen string :=
  if startswith tool_name "functions." then
    let tool_name := slice_from 10 tool_name in
    yield (create_text_message
             ("Note: Removed 'functions.' prefix. Using tool name: '"
                +:+ tool_name +:+ "'"));;
    mret tool_name
  else mret tool_name.

(** Lines 173-176: store the file in [tool_file_map].  The new inner
    dictionary is created first and then put under the tool name; the file is
    written into the dictionary found under the tool name, in place.  A
    subscript on a missing key raises [KeyError]. *)
Definition store_file (tool_name param_name : string) (file : File)
  : Gen unit :=
  table ← load_table;
  (if bool_decide (tool_name ∈ dom table) then mret tt
   else l ← new_dict; store_table (<[tool_name := l]> table));;
  table ← load_table;
  match table !! tool_name with
  | None => raise (KeyError tool_name)
  | Some l =>
      inner ← load_dict l;
      store_dict l (<[param_name := file]> inner)
  end.

Definition _invoke (tool_parameters : gmap string PyVal) : Gen unit :=
  let file_id := dict_get tool_parameters "file_id" in
  let target := dict_get tool_parameters "target" in
  let parameter_name :=
    dict_get_default tool_parameters "parameter_name" (VStr "file") in
  if negb (truthy file_id) then
    yield (create_text_message "File ID is required");; return_
  else
    this ← get_self;
    file ← file_map_get (file_map this) file_id;
    match file with
    | None =>
        yield (create_text_message
                 ("File with ID '" +:+ py_format file_id +:+ "' not found"));;
        return_
    | Some file =>
        if negb (truthy target) then
          yield (create_text_message "Target is required");; return_
        else if bool_decide (target = VStr "self") then
          yield (FileMessage (self_meta file))
        else
          tool_name ← py_strip target;
          param_name ← py_strip parameter_name;
          tool_name ← remove_prefix tool_name;
          if bool_decide (tool_name = "") then
            yield (create_text_message "Tool name cannot be empty");; return_
          else if bool_decide (param_name = "") then
            yield (create_text_message "Parameter name cannot be empty");;
            return_
          else
            store_file tool_name param_name file;;
            yield (FileMessage (tool_meta file tool_name param_name))
    end.

(** ** The call interface

    [dispatch(fileId, target, parameterName)]: the two required parameters are
    strings, [parameter_name] is a string or is left out.  A null argument is
    only reachable through [_invoke]. *)
Definition request (fileId target : string) (parameterName : option string)
  : gmap string PyVal :=
  let d : gmap string PyVal :=
    {[ "file_id" := VStr fileId; "target" := VStr target ]} in
  match parameterName with
  | None => d
  | Some p => <[ "parameter_name" := VStr p ]> d
  end.

Definition dispatch (fileId target : string) (parameterName : option string)
  : Gen unit :=
  _invoke (request fileId target parameterName).

(** ** Reading the outcome of a call *)

(** The references that the tool's routing table holds, by tool name. *)
Definition refs (st : State) : gmap string loc :=
  default ∅ (tables (heap st) !! tool_file_map (self st)).

(** The mapping that the table at [l] denotes: each reference read. *)
Definition table_at (h : Heap) (l : loc) : RoutingTable :=
  (λ li, default ∅ (dicts h !! li)) <$> default ∅ (tables h !! l).

(** The routing table the tool works on, as a mapping. *)
Definition table (st : State) : RoutingTable :=
  table_at (heap st) (tool_file_map (self st)).

(** [RoutingTable[T][P]], if present. *)
Definition entry (d : RoutingTable) (T P : string) : option File :=
  d !! T ≫= (.!! P).

(** The tool name obtained from a target: trimmed, then without the prefix. *)
Definition normalize (target : string) : string :=
  let t := strip target in
  if startswith t "functions." then slice_from 10 t else t.

Definition note_text (tool_name : string) : string :=
  "Note: Removed 'functions.' prefix. Using tool name: '" +:+ tool_name +:+ "'".

(** The informational message, when the trimmed target carries the prefix. *)
Definition notes (target : string) : list ToolInvokeMessage :=
  if startswith (strip target) "functions."
  then [TextMessage (note_text (normalize target))] else [].

(** The state after [tool_file_map[T][P] = f], preceded by
    [tool_file_map[T] = {}] when [T] is not a key: the file is written into
    the inner dictionary that [T] refers to, or into a new one. *)
Definition route (T P : string) (f : File) (st : State) : State :=
  match refs st !! T with
  | Some li =>
      {| self := self st;
         heap := {| tables := tables (heap st);
                    dicts := <[li := <[P := f]>
                                       (default ∅ (dicts (heap st) !! li))]>
                               (dicts (heap st)) |} |}
  | None =>
      let li := fresh (dom (dicts (heap st))) in
      {| self := self st;
         heap := {| tables := <[tool_file_map (self st) := <[T := li]> (refs st)]>
                                (tables (heap st));
                    dicts := <[li := {[P := f]}]> (dicts (heap st)) |} |}
  end.

(** The message of the two exceptions. *)
Definition no_strip (v : PyVal) : PyExn :=
  AttributeError ("'" +:+ type_name v +:+ "' object has no attribute 'strip'").

Definition unhashable (v : PyVal) : PyExn :=
  TypeError ("unhashable type: '" +:+ type_name v +:+ "'").

(** The file a hashable file id resolves to. *)
Definition resolve (m : gmap (option string) File) (file_id : PyVal)
  : option File :=
  match file_id with
  | VNone => m !! None
  | VStr s => m !! Some s
  | _ => None
  end.

(** [_invoke] without the monad: the run of each path. *)
Definition invoke_run (tool_parameters : gmap string PyVal) (st : State)
  : Run unit :=
  let file_id := dict_get tool_parameters "file_id" in
  let target := dict_get tool_parameters "target" in
  let parameter_name :=
    dict_get_default tool_parameters "parameter_name" (VStr "file") in
  if negb (truthy file_id) then
    mkRun [TextMessage "File ID is required"] Returned st
  else
    match file_id with
    | VList _ _ | VDict _ _ => mkRun [] (Raised (unhashable file_id)) st
    | _ =>
        match resolve (file_map (self st)) file_id with
        | None =>
            mkRun [TextMessage
                     ("File with ID '" +:+ py_format file_id +:+ "' not found")]
              Returned st
        | Some f =>
            if negb (truthy target) then
              mkRun [TextMessage "Target is required"] Returned st
            else
              match target with
              | VStr t =>
                  if bool_decide (t = "self") then
                    mkRun [FileMessage (self_meta f)] (Value tt) st
                  else
                    match parameter_name with
                    | VStr p =>
                        if bool_decide (normalize t = "") then
                          mkRun (notes t
                                   ++ [TextMessage "Tool name cannot be empty"])
                            Returned st
                        else if bool_decide (strip p = "") then
                          mkRun (notes t
                                   ++ [TextMessage
                                         "Parameter name cannot be empty"])
                            Returned st
                        else
                          mkRun (notes t
                                   ++ [FileMessage
                                         (tool_meta f (normalize t) (strip p))])
                            (Value tt) (route (normalize t) (strip p) f st)
                    | _ => mkRun [] (Raised (no_strip parameter_name)) st
                    end
              | _ => mkRun [] (Raised (no_strip target)) st
              end
        end
    end.

(** [dispatch] path by path, in the order of the checks. *)
Definition dispatch_run (fileId target : string) (parameterName : option string)
    (st : State) : Run unit :=
  if bool_decide (fileId = "") then
    mkRun [TextMessage "File ID is required"] Returned st
  else
    match file_map (self st) !! Some fileId with
    | None =>
        mkRun [TextMessage ("File with ID '" +:+ fileId +:+ "' not found")]
          Returned st
    | Some f =>
        if bool_decide (target = "") then
          mkRun [TextMessage "Target is required"] Returned st
        else if bool_decide (target = "self") then
          mkRun [FileMessage (self_meta f)] (Value tt) st
        else
          let T := normalize target in
          let P := strip (default "file" parameterName) in
          if bool_decide (T = "") then
            mkRun (notes target ++ [TextMessage "Tool name cannot be empty"])
              Returned st
          else if bool_decide (P = "") then
            mkRun (notes target ++ [TextMessage "Parameter name cannot be empty"])
              Returned st
          else
            mkRun (notes target ++ [FileMessage (tool_meta f T P)])
              (Value tt) (route T P f st)
    end.

(** The two outcomes of a call that delivers: the generator runs to its end
    and its last message is the [FILE] message of that delivery. *)
Definition self_delivery (r : Run unit) (f : File) : Prop :=
  ending r = Value tt ∧ last (yielded r) = Some (FileMessage (self_meta f)).

Definition routed_delivery (r : Run unit) (f : File) (T P : string) : Prop :=
  ending r = Value tt ∧ last (yielded r) = Some (FileMessage (tool_meta f T P)).

(** The files of [fs] named [k], in order. *)
Definition named (k : option string) (fs : list File) : list File :=
  filter (λ f, filename f = k) fs.

(** ** Validation as the specification words it

    The failures of a call, in the order in which they are checked: empty
    file id, file id not in the catalog, empty target, tool name empty after
    trimming and prefix removal, and, when the target is not [self], parameter
    name empty after trimming.  This definition follows the specification; it
    is compared with [dispatch] below. *)
Inductive Diagnostic : Type :=
  | FileIdRequired
  | FileNotFound (fileId : string)
  | TargetRequired
  | ToolNameEmpty
  | ParameterNameEmpty.

Definition diagnostic_text (d : Diagnostic) : string :=
  match d with
  | FileIdRequired => "File ID is required"
  | FileNotFound fileId => "File with ID '" +:+ fileId +:+ "' not found"
  | TargetRequired => "Target is required"
  | ToolNameEmpty => "Tool name cannot be empty"
  | ParameterNameEmpty => "Parameter name cannot be empty"
  end.

Definition first_failure (catalog : gmap (option string) File) (fileId target : string)
    (parameterName : option string) : option Diagnostic :=
  if bool_decide (fileId = "") then Some FileIdRequired
  else if bool_decide (catalog !! Some fileId = None) then
    Some (FileNotFound fileId)
  else if bool_decide (target = "") then Some TargetRequired
  else if bool_decide (normalize target = "") then Some ToolNameEmpty
  else if bool_decide (target ≠ "self")
          && bool_decide (strip (default "file" parameterName) = "")
  then Some ParameterNameEmpty
  else None.

(** The normalization notice precedes the two diagnostics issued after it. *)
Definition notes_before (d : Diagnostic) (target : string)
  : list ToolInvokeMessage :=
  match d with
  | ToolNameEmpty | ParameterNameEmpty => notes target
  | _ => []
  end.

(** ** Scenario data *)

#[global] Instance Heap_empty : Empty Heap := mkHeap ∅ ∅.

Definition report_pdf : File :=
  {| filename := Some "report.pdf"; type := Some "document";
     size := Some 1024%Z |}.

Definition notes_txt : File :=
  {| filename := Some "notes.txt"; type := Some "document"; size := Some 12%Z |}.

Definition report_pdf_v2 : File :=
  {| filename := Some "report.pdf"; type := Some "document";
     size := Some 2048%Z |}.

Definition unnamed_file : File :=
  {| filename := Some ""; type := None; size := None |}.

(** A tool built over two files, with no table supplied. *)
Definition st0 : State := __init__ [report_pdf; notes_txt] None ∅.

(** A store whose table at address 1 holds one entry. *)
Definition shared_heap : Heap :=
  {| tables := {[ 1%positive := {[ "converter" := 1%positive ]} ]};
     dicts := {[ 1%positive := {[ "file" := notes_txt ]} ]} |}.

(** A store whose table at address 1 holds one inner dictionary under the two
    tool names [a] and [b], as after [d = {"q": notes}; table = {"a": d,
    "b": d}]. *)
Definition aliased_heap : Heap :=
  {| tables := {[ 1%positive := {[ "a" := 7%positive; "b" := 7%positive ]} ]};
     dicts := {[ 7%positive := {[ "q" := notes_txt ]} ]} |}.

(** ** The tool entity

    Modelled from the spec: the entity classes of [core.tools.entities] and
    [core.plugin.entities] are imported, not defined, by the dispatcher.  Each
    is a record of the keyword arguments the dispatcher passes, one module per
    class.  The [zh_CN] labels are kept as their UTF-8 bytes; nothing reads
    them. *)
Module I18nObject.
Record t : Type := mk { en_US : string; zh_CN : option string }.
End I18nObject.

Module PluginParameterOption.
Record t : Type := mk { value : string; label : I18nObject.t }.
End PluginParameterOption.

Module ToolIdentity.
Record t : Type := mk {
  name : string;
  author : string;
  label : I18nObject.t;
  provider : string;
}.
End ToolIdentity.

Module ToolDescription.
Record t : Type := mk { llm : string; human : I18nObject.t }.
End ToolDescription.

Module ToolParameter.
Inductive ToolParameterType : Type := SELECT | STRING.
Inductive ToolParameterForm : Type := LLM.
Record t : Type := mk {
  name : string;
  type : ToolParameterType;
  required : bool;
  label : I18nObject.t;
  human_description : I18nObject.t;
  llm_description : string;
  form : ToolParameterForm;
  options : list PluginParameterOption.t;
  default : option string;
}.
End ToolParameter.

Module ToolEntity.
Record t : Type := mk {
  identity : ToolIdentity.t;
  description : ToolDescription.t;
  parameters : list ToolParameter.t;
}.
End ToolEntity.

(** [f.filename or ""] *)
Definition or_empty (v : option string) : string :=
  match v with
  | Some s => if bool_decide (s = "") then "" else s
  | None => ""
  end.

(** Line 86: the label of a file.  A missing filename is formatted as
    [None]; a file type, when present, is true in a condition; [f.size or 0]
    is [0] for a missing size and for size zero. *)
Definition file_label (f : File) : string :=
  match filename f with Some s => s | None => "None" end +:+ " ("
    +:+ match type f with Some v => v | None => "unknown" end +:+ ", "
    +:+ pretty (match size f with
                | Some z => if bool_decide (z = 0%Z) then 0%Z else z
                | None => 0%Z
                end)
    +:+ " bytes)".

(** Lines 82-90: one option per file, in the order of [self.files]. *)
Definition file_options (fs : list File) : list PluginParameterOption.t :=
  (λ f, PluginParameterOption.mk (or_empty (filename f))
          (I18nObject.mk (file_label f) None)) <$> fs.

(** [FileDispatcherTool._create_tool_entity] *)
Definition _create_tool_entity (this : FileDispatcherTool) : ToolEntity.t :=
  ToolEntity.mk
    (ToolIdentity.mk "dispatch_file" "system"
       (I18nObject.mk "Dispatch File" (Some "分发文件")) "system")
    (ToolDescription.mk
       ("Dispatch a file either to yourself (for analysis) or to another tool's specific parameter. "
        +:+ "Use target='self' to load file content into your context. "
        +:+ "For other tools, use ONLY the tool name without any prefix "
        +:+ "(e.g., 'markdown_converter' not 'functions.markdown_converter').")
       (I18nObject.mk "Dispatch file" (Some "分发文件")))
    [ ToolParameter.mk "file_id" ToolParameter.SELECT true
        (I18nObject.mk "File" (Some "文件"))
        (I18nObject.mk "Select a file" (Some "选择文件"))
        "The ID of the file to dispatch"
        ToolParameter.LLM
        (file_options (files this))
        None;
      ToolParameter.mk "target" ToolParameter.STRING true
        (I18nObject.mk "Target" (Some "目标"))
        (I18nObject.mk "Target for the file" (Some "文件目标"))
        ("Where to send the file. Use 'self' to analyze file content yourself, "
         +:+ "or use the exact tool name only (e.g., 'image_analyzer', NOT 'functions.image_analyzer'). "
         +:+ "Do not include 'functions.' prefix")
        ToolParameter.LLM
        []
        None;
      ToolParameter.mk "parameter_name" ToolParameter.STRING false
        (I18nObject.mk "Parameter Name" (Some "参数名称"))
        (I18nObject.mk "Parameter name for tool" (Some "工具参数名"))
        ("When target is a tool, specify which parameter accepts files "
         +:+ "(check the system prompt for available tools and their file parameters). "
         +:+ "Skip this for target='self'")
        ToolParameter.LLM
        []
        (Some "file") ].

(** The parameter of the entity called [n], if any. *)
Definition entity_parameter (e : ToolEntity.t) (n : string)
  : option ToolParameter.t :=
  list_find (λ p, ToolParameter.name p = n) (ToolEntity.parameters e)
    ≫= λ ip, Some ip.2.

(** ** A session of calls *)

(** A caller that consumes one generator after the other, each to its end. *)
Definition invoke_all (calls : list (gmap string PyVal)) (st : State) : State :=
  foldl (λ s tool_parameters, final (_invoke tool_parameters s)) st calls.

(** The keys of a routing table are normalized: a tool name is non-empty and
    does not end in white space, its inner mapping has an entry, and a
    parameter name is non-empty and trimmed. *)
Definition keys_normalized (d : RoutingTable) : Prop :=
  ∀ T inner, d !! T = Some inner →
    T ≠ "" ∧ rstrip T = T ∧ inner ≠ ∅
    ∧ ∀ P g, inner !! P = Some g → P ≠ "" ∧ strip P = P.

(** The files of a routing table are files the catalog resolves under a
    non-empty file id. *)
Definition files_resolved (catalog : gmap (option string) File)
    (d : RoutingTable) : Prop :=
  ∀ T P g, entry d T P = Some g →
    ∃ fileId, fileId ≠ "" ∧ catalog !! Some fileId = Some g.

(** The conditions under which a call stores a file. *)
Definition routes (tool_parameters : gmap string PyVal) (this : FileDispatcherTool)
    (f : File) (T P : string) : Prop :=
  ∃ fileId target parameterName,
    dict_get tool_parameters "file_id" = VStr fileId
    ∧ fileId ≠ ""
    ∧ file_map this !! Some fileId = Some f
    ∧ dict_get tool_parameters "target" = VStr target
    ∧ target ≠ ""
    ∧ target ≠ "self"
    ∧ dict_get_default tool_parameters "parameter_name" (VStr "file")
      = VStr parameterName
    ∧ T = normalize target ∧ T ≠ ""
    ∧ P = strip parameterName ∧ P ≠ "".

(** The table of the tool holds live references, and no inner dictionary
    under two tool names. *)
Definition unaliased (st : State) : Prop :=
  (∀ T li, refs st !! T = Some li → is_Some (dicts (heap st) !! li))
  ∧ (∀ T1 T2 li, refs st !! T1 = Some li → refs st !! T2 = Some li → T1 = T2).


(** ** Basic facts *)

Lemma Run_eta {A} (r : Run A) : mkRun (yielded r) (ending r) (final r) = r.
Proof. by destruct r. Qed.

(** How [bind] runs after each primitive. *)
Lemma bind_ret {A B} (a : A) (k : A → Gen B) (st : State) :
  (mret a ≫= k) st = k a st.
Proof. unfold mbind, Gen_bind, mret, Gen_ret. simpl. apply Run_eta. Qed.

Lemma bind_value {A B} (g : Gen A) (k : A → Gen B) (st st' : State) (a : A) :
  g st = mkRun [] (Value a) st' → (g ≫= k) st = k a st'.
Proof.
  intros Hg. unfold mbind, Gen_bind. rewrite Hg. simpl. apply Run_eta.
Qed.

Lemma load_table_run (st : State) :
  load_table st = mkRun [] (Value (refs st)) st.
Proof. done. Qed.

Lemma store_file_run (T P : string) (f : File) (st : State) :
  store_file T P f st = mkRun [] (Value tt) (route T P f st).
Proof.
  unfold store_file.
  rewrite (bind_value _ _ _ _ _ (load_table_run st)).
  case_bool_decide as Hdom.
  - rewrite bind_ret, (bind_value _ _ _ _ _ (load_table_run st)).
    apply elem_of_dom in Hdom as [li Hli]. rewrite Hli.
    erewrite bind_value by reflexivity.
    unfold store_dict, route. by rewrite Hli.
  - apply not_elem_of_dom in Hdom.
    erewrite bind_value by reflexivity.
    unfold mbind, Gen_bind, new_dict, store_table, load_table, load_dict,
      store_dict, route.
    cbn [ending final yielded self heap tables dicts app].
    rewrite lookup_insert_eq. cbn [default from_option id].
    rewrite lookup_insert_eq.
    cbn [ending final yielded self heap tables dicts app].
    rewrite lookup_insert_eq, Hdom. cbn [default from_option id].
    by rewrite insert_insert_eq, insert_empty.
Qed.

Lemma self_route (T P : string) (f : File) (st : State) :
  self (route T P f st) = self st.
Proof. unfold route. by destruct (refs st !! T). Qed.

Lemma refs_route (T P : string) (f : File) (st : State) :
  refs (route T P f st)
  = match refs st !! T with
    | Some _ => refs st
    | None => <[T := fresh (dom (dicts (heap st)))]> (refs st)
    end.
Proof.
  unfold route. destruct (refs st !! T) as [li|]; [done|].
  unfold refs at 1. cbn [self heap tables]. by rewrite lookup_insert_eq.
Qed.

Lemma refs_route_same (T P : string) (f : File) (st : State) :
  refs (route T P f st) !! T
  = Some (default (fresh (dom (dicts (heap st)))) (refs st !! T)).
Proof.
  rewrite refs_route. destruct (refs st !! T) as [li|] eqn:Hli; [done|].
  by rewrite lookup_insert_eq.
Qed.

Lemma refs_route_other (T T' P : string) (f : File) (st : State) :
  T' ≠ T → refs (route T P f st) !! T' = refs st !! T'.
Proof.
  intros Hne. rewrite refs_route. destruct (refs st !! T); [done|].
  by rewrite lookup_insert_ne.
Qed.

(** The inner dictionary that [route T P f] writes into. *)
Lemma dicts_route (T P : string) (f : File) (st : State) :
  dicts (heap (route T P f st))
  = let li := default (fresh (dom (dicts (heap st)))) (refs st !! T) in
    <[li := <[P := f]> (default ∅ (refs st !! T ≫= (dicts (heap st) !!.)))]>
      (dicts (heap st)).
Proof.
  unfold route. destruct (refs st !! T) as [li|]; [done|].
  cbn [heap dicts default from_option id mbind option_bind].
  by rewrite insert_empty.
Qed.

Lemma table_lookup (st : State) (T : string) :
  table st !! T = (λ li, default ∅ (dicts (heap st) !! li)) <$> refs st !! T.
Proof. unfold table, table_at, refs. apply lookup_fmap. Qed.

Lemma table_route_same (T P : string) (f : File) (st : State) :
  table (route T P f st) !! T
  = Some (<[P := f]> (default ∅ (table st !! T))).
Proof.
  rewrite !table_lookup, refs_route_same, dicts_route. cbv zeta.
  cbn [fmap option_fmap option_map]. rewrite lookup_insert_eq.
  by destruct (refs st !! T).
Qed.

Lemma entry_route_same (T P : string) (f : File) (st : State) :
  entry (table (route T P f st)) T P = Some f.
Proof.
  unfold entry. rewrite table_route_same. simpl. apply lookup_insert_eq.
Qed.

Lemma entry_route_other_param (T P P' : string) (f : File) (st : State) :
  P' ≠ P → entry (table (route T P f st)) T P' = entry (table st) T P'.
Proof.
  intros Hne. unfold entry. rewrite table_route_same. simpl.
  rewrite lookup_insert_ne by done. by destruct (table st !! T).
Qed.

(** What [route] does to the mapping under another tool name: nothing, or,
    when that name holds the reference written into, the same write. *)
Lemma table_route_other (T T' P : string) (f : File) (st : State) :
  T' ≠ T →
  table (route T P f st) !! T' = table st !! T'
  ∨ ∃ v, table st !! T' = Some v
         ∧ table (route T P f st) !! T' = Some (<[P := f]> v).
Proof.
  intros Hne. rewrite !table_lookup, refs_route_other, dicts_route by done.
  cbv zeta. destruct (refs st !! T') as [li'|] eqn:Hli'; [|by left].
  cbn [fmap option_fmap option_map].
  destruct (decide (default (fresh (dom (dicts (heap st)))) (refs st !! T) = li'))
    as [Heq|Hneq].
  - right. eexists. split; [done|]. rewrite Heq, lookup_insert_eq.
    destruct (refs st !! T) as [li|] eqn:Hli; cbn in Heq |- *.
    + by subst li.
    + subst li'. f_equal. f_equal.
      pose proof (is_fresh (dom (dicts (heap st)))) as Hfresh.
      apply not_elem_of_dom in Hfresh. by rewrite Hfresh.
  - left. by rewrite lookup_insert_ne.
Qed.

Lemma tables_route_other (T P : string) (f : File) (st : State) (l : loc) :
  l ≠ tool_file_map (self st) →
  tables (heap (route T P f st)) !! l = tables (heap st) !! l.
Proof.
  intros Hne. unfold route. destruct (refs st !! T); [done|].
  cbn [heap tables]. by rewrite lookup_insert_ne.
Qed.

Lemma dicts_route_other (T P : string) (f : File) (st : State) (li : loc) :
  is_Some (dicts (heap st) !! li) →
  refs st !! T ≠ Some li →
  dicts (heap (route T P f st)) !! li = dicts (heap st) !! li.
Proof.
  intros Hlive Hne. rewrite dicts_route. cbv zeta.
  rewrite lookup_insert_ne; [done|].
  destruct (refs st !! T) as [li0|]; cbn; [congruence|].
  intros <-. pose proof (is_fresh (dom (dicts (heap st)))) as Hfresh.
  by apply Hfresh, elem_of_dom.
Qed.

(** On a table without aliases [route] is the update of one entry of the
    mapping, and it leaves the table without aliases. *)
Lemma table_route_unaliased (T P : string) (f : File) (st : State) :
  unaliased st →
  table (route T P f st)
  = <[T := <[P := f]> (default ∅ (table st !! T))]> (table st)
  ∧ unaliased (route T P f st).
Proof.
  intros [Hlive Hinj]. split.
  - apply map_eq. intros T'. destruct (decide (T' = T)) as [->|Hne].
    + by rewrite table_route_same, lookup_insert_eq.
    + rewrite lookup_insert_ne by done.
      rewrite !table_lookup, refs_route_other by done.
      destruct (refs st !! T') as [li'|] eqn:Hli'; [|done].
      cbn [fmap option_fmap option_map].
      rewrite dicts_route_other; [done|by eapply Hlive|].
      intros HT. apply Hne. by eapply Hinj.
  - split.
    + intros T' li' Hli'. rewrite dicts_route. cbv zeta.
      destruct (decide (T' = T)) as [->|Hne].
      * rewrite refs_route_same in Hli'. injection Hli' as <-.
        rewrite lookup_insert_eq. by eexists.
      * rewrite refs_route_other in Hli' by done.
        apply lookup_insert_is_Some'. right. by eapply Hlive.
    + intros T1 T2 li H1 H2.
      assert (∀ T', T' ≠ T → refs (route T P f st) !! T' = Some li →
                refs (route T P f st) !! T = Some li → False) as Hfresh.
      { intros T' Hne H' HT. rewrite refs_route_other in H' by done.
        rewrite refs_route_same in HT. injection HT as HT.
        destruct (refs st !! T) as [li0|] eqn:Hli0; cbn in HT; subst li.
        - apply Hne. by eapply Hinj.
        - apply Hlive in H'. apply elem_of_dom in H'.
          by apply is_fresh in H'. }
      destruct (decide (T1 = T)) as [->|Hne1];
        destruct (decide (T2 = T)) as [->|Hne2]; [done| | |].
      * exfalso. by eapply Hfresh.
      * exfalso. by eapply Hfresh.
      * rewrite refs_route_other in H1, H2 by done. by eapply Hinj.
Qed.

Lemma remove_prefix_run (t : string) (st : State) :
  remove_prefix (strip t) st = mkRun (notes t) (Value (normalize t)) st.
Proof.
  unfold remove_prefix, notes, normalize.
  by destruct (startswith (strip t) "functions.").
Qed.

Lemma _invoke_unfold (tool_parameters : gmap string PyVal) (st : State) :
  _invoke tool_parameters st = invoke_run tool_parameters st.
Proof.
  unfold _invoke, invoke_run. cbv zeta.
  destruct (truthy (dict_get tool_parameters "file_id")) eqn:Hfid; [|done].
  cbn [negb]. erewrite bind_value by reflexivity.
  destruct (dict_get tool_parameters "file_id") as [|fid|b|z|nz tx|ne tx|ne tx];
    [done| | | |done..]; cbn [file_map_get resolve];
    rewrite ?bind_ret; [|done..].
  destruct (file_map (self st) !! Some fid) as [f|]; [|done].
  destruct (truthy (dict_get tool_parameters "target")) eqn:Ht; [|done].
  cbn [negb].
  destruct (dict_get tool_parameters "target") as [|t|b|z|nz tx|ne tx|ne tx];
    [done| |by rewrite bool_decide_eq_false_2..].
  destruct (decide (t = "self")) as [->|Hself].
  { by rewrite !bool_decide_eq_true_2. }
  rewrite (bool_decide_eq_false_2 (VStr t = VStr "self")) by congruence.
  rewrite (bool_decide_eq_false_2 (t = "self")) by done.
  cbn [py_strip]. rewrite bind_ret.
  destruct (dict_get_default tool_parameters "parameter_name" (VStr "file"))
    as [|p|b|z|nz tx|ne tx|ne tx]; [done| |done..].
  cbn [py_strip]. rewrite bind_ret.
  unfold mbind at 1, Gen_bind at 1. rewrite remove_prefix_run.
  cbn [ending final yielded].
  repeat case_bool_decide; try done.
  unfold mbind, Gen_bind. rewrite store_file_run. done.
Qed.

(** ** The catalog *)

Lemma index_files_snoc (fs : list File) (f : File) :
  index_files (fs ++ [f]) = <[filename f := f]> (index_files fs).
Proof. unfold index_files. by rewrite foldl_app. Qed.

Lemma index_files_lookup (fs : list File) (k : option string) :
  index_files fs !! k = last (named k fs).
Proof.
  induction fs as [|f fs IH] using rev_ind; [done|].
  rewrite index_files_snoc. unfold named in *. rewrite filter_app.
  rewrite filter_cons, filter_nil.
  destruct (decide (filename f = k)) as [<-|Hne].
  - by rewrite lookup_insert_eq, last_snoc.
  - by rewrite lookup_insert_ne, app_nil_r.
Qed.

Lemma index_files_elem (fs : list File) (k : option string) (g : File) :
  index_files fs !! k = Some g → g ∈ fs ∧ filename g = k.
Proof.
  rewrite index_files_lookup. intros Hl.
  apply last_Some_elem_of in Hl. unfold named in Hl.
  by apply list_elem_of_filter in Hl as [? ?].
Qed.

Lemma index_files_later (l1 l2 : list File) (f : File) :
  (∀ g, g ∈ l2 → filename g ≠ filename f) →
  index_files (l1 ++ f :: l2) !! filename f = Some f.
Proof.
  intros Hl2. rewrite index_files_lookup. unfold named.
  rewrite filter_app, filter_cons_True by done.
  replace (filter (λ g, filename g = filename f) l2) with (@nil File).
  - by rewrite last_snoc.
  - symmetry. induction l2 as [|g l2 IH]; [done|].
    rewrite filter_cons_False.
    + apply IH. intros g' Hg'. apply Hl2. by right.
    + apply Hl2. by left.
Qed.

Lemma index_files_NoDup (fs : list File) (f : File) :
  NoDup (filename <$> fs) → f ∈ fs → index_files fs !! filename f = Some f.
Proof.
  intros Hnd Hin. apply list_elem_of_split in Hin as (l1 & l2 & ->).
  apply index_files_later. intros g Hg Heq.
  rewrite fmap_app, fmap_cons in Hnd.
  apply NoDup_app in Hnd as (_ & _ & Hnd).
  apply NoDup_cons in Hnd as [Hnd _]. apply Hnd.
  rewrite <- Heq. by apply list_elem_of_fmap_2.
Qed.

Lemma init_file_map (fs : list File) (o : option loc) (h : Heap) :
  file_map (self (__init__ fs o h)) = index_files fs.
Proof. unfold __init__. by destruct (or_new_dict o h). Qed.

Lemma init_files (fs : list File) (o : option loc) (h : Heap) :
  files (self (__init__ fs o h)) = fs.
Proof. unfold __init__. by destruct (or_new_dict o h). Qed.

(** ** [dispatch] path by path *)

Lemma request_file_id (fileId target : string) (pn : option string) :
  dict_get (request fileId target pn) "file_id" = VStr fileId.
Proof. unfold dict_get, request. destruct pn; by simplify_map_eq. Qed.

Lemma request_target (fileId target : string) (pn : option string) :
  dict_get (request fileId target pn) "target" = VStr target.
Proof. unfold dict_get, request. destruct pn; by simplify_map_eq. Qed.

Lemma request_parameter_name (fileId target : string) (pn : option string) :
  dict_get_default (request fileId target pn) "parameter_name" (VStr "file")
  = VStr (default "file" pn).
Proof. unfold dict_get_default, request. destruct pn; by simplify_map_eq. Qed.

Lemma dispatch_unfold (fileId target : string) (pn : option string) (st : State) :
  dispatch fileId target pn st = dispatch_run fileId target pn st.
Proof.
  unfold dispatch. rewrite _invoke_unfold. unfold invoke_run, dispatch_run.
  rewrite request_file_id, request_target, request_parameter_name.
  cbn [truthy resolve]. case_bool_decide as Hfid; [done|]. cbn [negb].
  destruct (file_map (self st) !! Some fileId); [|done].
  by case_bool_decide.
Qed.

(** ** Evaluation on concrete calls *)

Ltac by_evaluation :=
  intros;
  repeat match goal with
         | |- _ ∧ _ => split
         | |- routed_delivery _ _ _ _ => split
         | |- self_delivery _ _ => split
         | |- _ ≠ _ => discriminate
         | |- _ = _ => vm_compute; reflexivity
         | |- _ => apply (bool_decide_unpack _); vm_compute; exact I
         end.

Example dispatch_report_self :
  dispatch "report.pdf" "self" None st0
  = mkRun [FileMessage (self_meta report_pdf)] (Value tt) st0.
Proof. by_evaluation. Qed.

Example dispatch_report_summarizer :
  let r := dispatch "report.pdf" "functions.summarizer" (Some "input_file") st0 in
  yielded r
  = [TextMessage
       "Note: Removed 'functions.' prefix. Using tool name: 'summarizer'";
     FileMessage (tool_meta report_pdf "summarizer" "input_file")]
  ∧ entry (table (final r)) "summarizer" "input_file" = Some report_pdf.
Proof. by_evaluation. Qed.

Example strip_both_ends : strip "  a b " = "a b".
Proof. reflexivity. Qed.

(** ** Routed delivery *)

(** C1 (as amended): for a catalog built from files with unique filenames, a
    non-empty [fileId] naming a catalog file, a tool name [T] whose trimmed
    form is non-empty, is not [self] and has no prefix, and a parameter name
    [P] whose trimmed form is non-empty, [dispatch(fileId, T, P)] yields
    exactly the routed-delivery message carrying the file and the trimmed
    pair, and stores the file under the trimmed pair: the inner mapping is the
    previous one (empty if there was none) with that one entry set. *)
Theorem C1_routed_dispatch_writes_trimmed_entry
    (fs : list File) (st : State) (f : File) (fileId T P : string) :
  file_map (self st) = index_files fs →
  NoDup (filename <$> fs) →
  f ∈ fs →
  filename f = Some fileId →
  fileId ≠ "" →
  strip T ≠ "" →
  strip T ≠ "self" →
  startswith (strip T) "functions." = false →
  strip P ≠ "" →
  let r := dispatch fileId T (Some P) st in
  yielded r = [FileMessage (tool_meta f (strip T) (strip P))]
  ∧ ending r = Value tt
  ∧ table (final r) !! strip T
    = Some (<[strip P := f]> (default ∅ (table st !! strip T)))
  ∧ entry (table (final r)) (strip T) (strip P) = Some f.
Proof.
  intros Hcat Hnd Hin Hname Hfid HT Hself Hpre HP r. subst r.
  assert (file_map (self st) !! Some fileId = Some f) as Hf.
  { rewrite Hcat, <- Hname. by apply index_files_NoDup. }
  assert (T ≠ "") as HT0 by (by intros ->).
  assert (T ≠ "self") as HT1 by (by intros ->).
  rewrite dispatch_unfold. unfold dispatch_run.
  rewrite (bool_decide_eq_false_2 (fileId = "")), Hf by done.
  rewrite (bool_decide_eq_false_2 (T = "")) by done.
  rewrite (bool_decide_eq_false_2 (T = "self")) by done.
  unfold notes, normalize. rewrite Hpre. cbn [default].
  rewrite (bool_decide_eq_false_2 (strip T = "")) by done.
  rewrite (bool_decide_eq_false_2 (strip P = "")) by done.
  cbn [yielded ending final app].
  rewrite table_route_same, entry_route_same. done.
Qed.

Lemma C1_witness :
  let r := dispatch "report.pdf" " summarizer " (Some "input_file ") st0 in
  yielded r = [FileMessage (tool_meta report_pdf "summarizer" "input_file")]
  ∧ ending r = Value tt
  ∧ table (final r) !! "summarizer"
    = Some (<["input_file" := report_pdf]> (default ∅ (table st0 !! "summarizer")))
  ∧ entry (table (final r)) "summarizer" "input_file" = Some report_pdf.
Proof.
  apply (C1_routed_dispatch_writes_trimmed_entry
           [report_pdf; notes_txt] st0 report_pdf
           "report.pdf" " summarizer " "input_file "); by_evaluation.
Defined.

(** C1 (as stated) fails: a tool name made of a blank is non-empty, is not
    [self] and has no prefix, yet the call stops with the tool-name diagnostic
    and writes nothing; a blank parameter name likewise; a padded tool name is
    stored under its trimmed form; and an empty [fileId] naming a catalog file
    is rejected. *)
Lemma C1_counterexample :
  let fs := [report_pdf; notes_txt] in
  let st := __init__ fs None ∅ in
  let r1 := dispatch "report.pdf" " " (Some "file") st in
  let r2 := dispatch "report.pdf" "summarizer" (Some " ") st in
  let r3 := dispatch "report.pdf" "summarizer " (Some "file") st in
  let st' := __init__ [unnamed_file] None ∅ in
  let r4 := dispatch "" "summarizer" (Some "file") st' in
  (NoDup (filename <$> fs) ∧ report_pdf ∈ fs
   ∧ filename report_pdf = Some "report.pdf")
  ∧ (" " ≠ "" ∧ " " ≠ "self" ∧ startswith " " "functions." = false
     ∧ yielded r1 = [TextMessage "Tool name cannot be empty"]
     ∧ entry (table (final r1)) " " "file" = None)
  ∧ (" " ≠ ""
     ∧ yielded r2 = [TextMessage "Parameter name cannot be empty"]
     ∧ entry (table (final r2)) "summarizer" " " = None)
  ∧ ("summarizer " ≠ "self" ∧ startswith "summarizer " "functions." = false
     ∧ entry (table (final r3)) "summarizer " "file" = None
     ∧ entry (table (final r3)) "summarizer" "file" = Some report_pdf)
  ∧ (filename unnamed_file = Some ""
     ∧ yielded r4 = [TextMessage "File ID is required"]
     ∧ entry (table (final r4)) "summarizer" "file" = None).
Proof. by_evaluation. Qed.

(** ** Self delivery *)

(** C2 (as amended): for a catalog built from files with unique filenames and
    a non-empty [fileId] naming a catalog file, a call with target [self],
    whatever the parameter name (a string, null, or left out), yields exactly
    the self-delivery message carrying that file, and leaves the whole state,
    the routing table included, as it was. *)
Theorem C2_self_dispatch_delivers_file_unchanged_table
    (fs : list File) (st : State) (f : File) (fileId : string)
    (tool_parameters : gmap string PyVal) :
  file_map (self st) = index_files fs →
  NoDup (filename <$> fs) →
  f ∈ fs →
  filename f = Some fileId →
  fileId ≠ "" →
  dict_get tool_parameters "file_id" = VStr fileId →
  dict_get tool_parameters "target" = VStr "self" →
  let r := _invoke tool_parameters st in
  yielded r = [FileMessage (self_meta f)]
  ∧ ending r = Value tt
  ∧ final r = st.
Proof.
  intros Hcat Hnd Hin Hname Hfid Hpf Hpt r. subst r.
  assert (file_map (self st) !! Some fileId = Some f) as Hf.
  { rewrite Hcat, <- Hname. by apply index_files_NoDup. }
  rewrite _invoke_unfold. unfold invoke_run. rewrite Hpf, Hpt.
  cbn [truthy resolve]. rewrite (bool_decide_eq_false_2 (fileId = "")) by done.
  cbn [negb]. by rewrite Hf.
Qed.

Lemma C2_witness :
  let r := _invoke (<["parameter_name" := VNone]> (request "notes.txt" "self" None))
             st0 in
  yielded r = [FileMessage (self_meta notes_txt)]
  ∧ ending r = Value tt
  ∧ final r = st0.
Proof.
  apply (C2_self_dispatch_delivers_file_unchanged_table
           [report_pdf; notes_txt] st0 notes_txt "notes.txt"); by_evaluation.
Defined.

(** C2 (as stated) fails: in a catalog whose one file has the empty filename,
    the file id equal to that filename is rejected as missing; no
    self-delivery message is yielded. *)
Lemma C2_counterexample :
  let fs := [unnamed_file] in
  let st := __init__ fs None ∅ in
  let r := dispatch "" "self" None st in
  NoDup (filename <$> fs) ∧ unnamed_file ∈ fs
  ∧ filename unnamed_file = Some ""
  ∧ yielded r = [TextMessage "File ID is required"]
  ∧ ending r = Returned
  ∧ ¬ self_delivery r unnamed_file.
Proof.
  by_evaluation. intros [Hend _]. vm_compute in Hend. discriminate.
Qed.

(** ** Validation *)

(** C3: when one of the checks fails, in the order empty file id, file id not
    in the catalog, empty target, tool name empty after trimming and prefix
    removal, parameter name empty after trimming (target not [self]), the call
    yields the diagnostic of the first check that fails, preceded only by the
    normalization notice when the check comes after the normalization, then
    returns; the state, the routing table included, is as it was. *)
Theorem C3_first_failing_check_is_reported_without_mutation
    (st : State) (fileId target : string) (parameterName : option string)
    (d : Diagnostic) :
  first_failure (file_map (self st)) fileId target parameterName = Some d →
  dispatch fileId target parameterName st
  = mkRun (notes_before d target ++ [TextMessage (diagnostic_text d)])
      Returned st.
Proof.
  rewrite dispatch_unfold. unfold first_failure, dispatch_run.
  case_bool_decide as Hfid; [by intros [= <-]|].
  destruct (file_map (self st) !! Some fileId) as [f|] eqn:Hf;
    [rewrite bool_decide_eq_false_2 by done
    |rewrite bool_decide_eq_true_2 by done; by intros [= <-]].
  case_bool_decide as Ht; [by intros [= <-]|].
  destruct (decide (target = "self")) as [->|Hself].
  { intros H. vm_compute in H. discriminate. }
  rewrite (bool_decide_eq_false_2 (target = "self")) by done.
  rewrite (bool_decide_eq_true_2 (target ≠ "self")) by done.
  case_bool_decide as HT; [by intros [= <-]|].
  case_bool_decide as HP; [by intros [= <-]|done].
Qed.

Lemma C3_witness :
  dispatch "report.pdf" "functions." (Some "file") st0
  = mkRun [TextMessage "Note: Removed 'functions.' prefix. Using tool name: ''";
           TextMessage "Tool name cannot be empty"] Returned st0.
Proof.
  apply (C3_first_failing_check_is_reported_without_mutation
           st0 "report.pdf" "functions." (Some "file") ToolNameEmpty).
  by_evaluation.
Defined.

(** X1: when no check fails the call delivers: to the model for target
    [self], otherwise to the normalized tool name and trimmed parameter name,
    after the notice if the prefix was removed. *)
Lemma dispatch_without_failure
    (st : State) (fileId target : string) (parameterName : option string) :
  first_failure (file_map (self st)) fileId target parameterName = None →
  ∃ f, file_map (self st) !! Some fileId = Some f
       ∧ dispatch fileId target parameterName st
         = if bool_decide (target = "self")
           then mkRun [FileMessage (self_meta f)] (Value tt) st
           else
             let T := normalize target in
             let P := strip (default "file" parameterName) in
             mkRun (notes target ++ [FileMessage (tool_meta f T P)])
               (Value tt) (route T P f st).
Proof.
  rewrite dispatch_unfold. unfold first_failure, dispatch_run.
  case_bool_decide as Hfid; [done|].
  destruct (file_map (self st) !! Some fileId) as [f|] eqn:Hf;
    [rewrite bool_decide_eq_false_2 by done
    |by rewrite bool_decide_eq_true_2 by done].
  case_bool_decide as Ht; [done|].
  intros Hp. exists f. split; [done|]. cbv zeta.
  destruct (decide (target = "self")) as [->|Hself].
  { by rewrite !bool_decide_eq_true_2. }
  rewrite (bool_decide_eq_false_2 (target = "self")) by done.
  rewrite (bool_decide_eq_true_2 (target ≠ "self")) in Hp by done.
  case_bool_decide as HT; [done|].
  cbn [andb] in Hp. by case_bool_decide.
Qed.

(** ** Target classification *)

(** C5 (the code at the failing inputs): the target is compared with [self]
    before it is trimmed.  A target that is [self] only after trimming takes
    the tool branch: the file is stored in the routing table under a tool
    named [self] and the routed-delivery message is yielded. *)
Theorem C5_padded_self_is_routed_to_a_tool_named_self
    (st : State) (fileId target : string) (parameterName : option string)
    (f : File) :
  fileId ≠ "" →
  file_map (self st) !! Some fileId = Some f →
  target ≠ "self" →
  strip target = "self" →
  strip (default "file" parameterName) ≠ "" →
  let P := strip (default "file" parameterName) in
  let r := dispatch fileId target parameterName st in
  yielded r = [FileMessage (tool_meta f "self" P)]
  ∧ ending r = Value tt
  ∧ final r = route "self" P f st
  ∧ entry (table (final r)) "self" P = Some f.
Proof.
  intros Hfid Hf Hne Hstrip HP P r. subst P r.
  assert (target ≠ "") as Ht by (by intros ->).
  rewrite dispatch_unfold. unfold dispatch_run.
  rewrite (bool_decide_eq_false_2 (fileId = "")), Hf by done.
  rewrite (bool_decide_eq_false_2 (target = "")) by done.
  rewrite (bool_decide_eq_false_2 (target = "self")) by done.
  unfold notes, normalize. rewrite Hstrip.
  change (startswith "self" "functions.") with false. cbv iota zeta.
  rewrite (bool_decide_eq_false_2 ("self" = "")) by done.
  rewrite bool_decide_eq_false_2 by done.
  cbn [yielded ending final app]. rewrite entry_route_same. done.
Qed.

Lemma C5_witness :
  let r := dispatch "report.pdf" " self " None st0 in
  yielded r = [FileMessage (tool_meta report_pdf "self" "file")]
  ∧ ending r = Value tt
  ∧ final r = route "self" "file" report_pdf st0
  ∧ entry (table (final r)) "self" "file" = Some report_pdf.
Proof.
  apply (C5_padded_self_is_routed_to_a_tool_named_self
           st0 "report.pdf" " self " None report_pdf); by_evaluation.
Defined.

(** ** Exceptions *)

(** C6 (the code at the failing inputs): with a valid file id, a target other
    than [self] and [parameter_name] present with value null, [_invoke] raises
    [AttributeError] from [parameter_name.strip()] before it yields
    anything. *)
Theorem C6_null_parameter_name_raises
    (st : State) (tool_parameters : gmap string PyVal) (fileId target : string)
    (f : File) :
  dict_get tool_parameters "file_id" = VStr fileId →
  fileId ≠ "" →
  file_map (self st) !! Some fileId = Some f →
  dict_get tool_parameters "target" = VStr target →
  target ≠ "" →
  target ≠ "self" →
  tool_parameters !! "parameter_name" = Some VNone →
  _invoke tool_parameters st
  = mkRun []
      (Raised (AttributeError "'NoneType' object has no attribute 'strip'")) st.
Proof.
  intros Hpf Hfid Hf Hpt Ht Hself Hpn.
  rewrite _invoke_unfold. unfold invoke_run, dict_get_default.
  rewrite Hpf, Hpt, Hpn. cbn [truthy resolve].
  rewrite (bool_decide_eq_false_2 (fileId = "")) by done. cbn [negb].
  rewrite Hf, (bool_decide_eq_false_2 (target = "")) by done. cbn [negb].
  by rewrite bool_decide_eq_false_2 by done.
Qed.

Lemma C6_witness :
  _invoke (<["parameter_name" := VNone]> (request "report.pdf" "summarizer" None))
    st0
  = mkRun []
      (Raised (AttributeError "'NoneType' object has no attribute 'strip'")) st0.
Proof.
  apply (C6_null_parameter_name_raises st0 _ "report.pdf" "summarizer" report_pdf);
    by_evaluation.
Defined.

(** With string arguments no call raises. *)
Lemma dispatch_never_raises
    (st : State) (fileId target : string) (parameterName : option string)
    (e : PyExn) :
  ending (dispatch fileId target parameterName st) ≠ Raised e.
Proof.
  rewrite dispatch_unfold. unfold dispatch_run.
  repeat (case_bool_decide || case_match); done.
Qed.

(** ** Prefix normalization *)

Lemma startswith_functions (X : string) :
  startswith ("functions." +:+ X) "functions." = true.
Proof. by destruct X. Qed.

Lemma slice_from_functions (X : string) :
  slice_from 10 ("functions." +:+ X) = X.
Proof. done. Qed.

(** C7 (as amended): for a valid file id and a target whose trimmed form is
    [functions.X]: if [X] is non-empty and the parameter name (the default
    [file] when left out) is non-empty after trimming, the call yields the
    notice naming [X], then the routed-delivery message, and stores the file
    at [RoutingTable[X][P]] with [P] the trimmed parameter name; if [X] is
    empty the call yields the notice, then the tool-name diagnostic, and
    changes nothing. *)
Theorem C7_prefix_is_stripped_with_notice
    (st : State) (fileId target X : string) (parameterName : option string)
    (f : File) :
  fileId ≠ "" →
  file_map (self st) !! Some fileId = Some f →
  strip target = "functions." +:+ X →
  let P := strip (default "file" parameterName) in
  let r := dispatch fileId target parameterName st in
  (X ≠ "" → P ≠ "" →
   yielded r = [TextMessage (note_text X); FileMessage (tool_meta f X P)]
   ∧ ending r = Value tt
   ∧ final r = route X P f st
   ∧ entry (table (final r)) X P = Some f)
  ∧ (X = "" →
     yielded r = [TextMessage (note_text ""); TextMessage "Tool name cannot be empty"]
     ∧ ending r = Returned
     ∧ final r = st).
Proof.
  intros Hfid Hf Hstrip P r. subst P r.
  assert (target ≠ "") as Ht by (by intros ->).
  assert (target ≠ "self") as Hself by (by intros ->).
  rewrite dispatch_unfold. unfold dispatch_run.
  rewrite (bool_decide_eq_false_2 (fileId = "")), Hf by done.
  rewrite (bool_decide_eq_false_2 (target = "")) by done.
  rewrite (bool_decide_eq_false_2 (target = "self")) by done.
  unfold notes, normalize.
  rewrite Hstrip, startswith_functions, slice_from_functions. cbv zeta.
  split.
  - intros HX HP. rewrite !bool_decide_eq_false_2 by done.
    cbn [yielded ending final app]. by rewrite entry_route_same.
  - intros ->. done.
Qed.

Lemma C7_witness :
  let r := dispatch "report.pdf" " functions.markdown_converter" None st0 in
  yielded r
  = [TextMessage (note_text "markdown_converter");
     FileMessage (tool_meta report_pdf "markdown_converter" "file")]
  ∧ ending r = Value tt
  ∧ final r = route "markdown_converter" "file" report_pdf st0
  ∧ entry (table (final r)) "markdown_converter" "file" = Some report_pdf.
Proof.
  apply (C7_prefix_is_stripped_with_notice
           st0 "report.pdf" " functions.markdown_converter" "markdown_converter"
           None report_pdf); by_evaluation.
Defined.

(** C7 (as stated) fails: with target [functions.] followed by [x] and a
    blank, the part after the prefix is non-empty, yet nothing is stored under
    it (the file is stored under [x]); with a blank after the prefix the call
    stops with the tool-name diagnostic; and with an empty parameter name the
    call stops with the parameter-name diagnostic and stores nothing. *)
Lemma C7_counterexample :
  let r1 := dispatch "report.pdf" "functions.x " (Some "file") st0 in
  let r2 := dispatch "report.pdf" "functions. " (Some "file") st0 in
  let r3 := dispatch "report.pdf" "functions.x" (Some "") st0 in
  file_map (self st0) !! Some "report.pdf" = Some report_pdf
  ∧ ("x " ≠ ""
     ∧ entry (table (final r1)) "x " "file" = None
     ∧ entry (table (final r1)) "x" "file" = Some report_pdf)
  ∧ (" " ≠ ""
     ∧ yielded r2
       = [TextMessage (note_text ""); TextMessage "Tool name cannot be empty"]
     ∧ entry (table (final r2)) " " "file" = None)
  ∧ (yielded r3
     = [TextMessage (note_text "x");
        TextMessage "Parameter name cannot be empty"]
     ∧ table (final r3) !! "x" = None).
Proof. by_evaluation. Qed.

(** ** What a call leaves alone *)

Lemma tool_meta_inj (f f' : File) (T T' P P' : string) :
  tool_meta f T P = tool_meta f' T' P' → f = f' ∧ T = T' ∧ P = P'.
Proof.
  intros Heq. unfold tool_meta in Heq.
  pose proof (f_equal (.!! "file") Heq) as H1.
  pose proof (f_equal (.!! "target_tool") Heq) as H2.
  pose proof (f_equal (.!! "parameter_name") Heq) as H3.
  simplify_map_eq. done.
Qed.

Lemma self_meta_not_tool_meta (f f' : File) (T P : string) :
  self_meta f ≠ tool_meta f' T P.
Proof.
  intros Heq. apply (f_equal (.!! "target")) in Heq.
  unfold self_meta, tool_meta in Heq. simplify_map_eq.
Qed.

Ltac stopped := cbn; repeat case_match; by intros [? ?].

Lemma routed_delivery_routes
    (tool_parameters : gmap string PyVal) (st : State) (f : File) (T P : string) :
  routed_delivery (_invoke tool_parameters st) f T P →
  routes tool_parameters (self st) f T P.
Proof.
  rewrite _invoke_unfold. unfold routed_delivery, invoke_run, routes. cbv zeta.
  destruct (dict_get tool_parameters "file_id") as [|fid|b|z|nz tx|ne tx|ne tx];
    [stopped| |stopped..].
  cbn [truthy resolve]. case_bool_decide as Hfid; [stopped|]. cbn [negb].
  destruct (file_map (self st) !! Some fid) as [f'|] eqn:Hf; [|stopped].
  destruct (dict_get tool_parameters "target") as [|t|b|z|nz tx|ne tx|ne tx];
    [stopped| |stopped..].
  cbn [truthy]. case_bool_decide as Ht; [stopped|]. cbn [negb].
  case_bool_decide as Hself.
  { intros [_ Hl]. exfalso. apply (self_meta_not_tool_meta f' f T P).
    cbn [yielded last] in Hl. congruence. }
  destruct (dict_get_default tool_parameters "parameter_name" (VStr "file"))
    as [|p|b|z|nz tx|ne tx|ne tx]; [stopped| |stopped..].
  case_bool_decide as HT; [by intros [? ?]|].
  case_bool_decide as HP; [by intros [? ?]|].
  cbn [yielded ending final]. rewrite last_snoc. intros [_ Hl].
  assert (tool_meta f' (normalize t) (strip p) = tool_meta f T P)
    as Heq by congruence.
  apply tool_meta_inj in Heq as (-> & <- & <-).
  by exists fid, t, p.
Qed.

Lemma routes_run
    (tool_parameters : gmap string PyVal) (st : State) (f : File) (T P : string) :
  routes tool_parameters (self st) f T P →
  ∃ ms, Forall (λ m, ∃ text, m = TextMessage text) ms ∧ length ms ≤ 1
        ∧ _invoke tool_parameters st
          = mkRun (ms ++ [FileMessage (tool_meta f T P)]) (Value tt)
              (route T P f st).
Proof.
  intros (fid & t & p & Hpf & Hfid & Hf & Hpt & Ht & Hself & Hpn & -> & HT & -> & HP).
  exists (notes t). split; [|split].
  - unfold notes. case_match; repeat constructor. by eexists.
  - unfold notes. case_match; simpl; lia.
  - rewrite _invoke_unfold. unfold invoke_run. rewrite Hpf, Hpt, Hpn.
    cbn [truthy resolve].
    rewrite (bool_decide_eq_false_2 (fid = "")) by done. cbn [negb].
    rewrite Hf, (bool_decide_eq_false_2 (t = "")) by done. cbn [negb].
    by rewrite !bool_decide_eq_false_2 by done.
Qed.

(** The run of a routed delivery: the call took the storing path. *)
Lemma routed_delivery_inv
    (tool_parameters : gmap string PyVal) (st : State) (f : File) (T P : string) :
  routed_delivery (_invoke tool_parameters st) f T P →
  final (_invoke tool_parameters st) = route T P f st
  ∧ resolve (file_map (self st)) (dict_get tool_parameters "file_id") = Some f.
Proof.
  intros Hr. apply routed_delivery_routes in Hr as Hroutes.
  pose proof Hroutes as (fid & t & p & -> & _ & Hf & _).
  apply routes_run in Hroutes as (ms & _ & _ & ->). done.
Qed.

(** A call that is not a routed delivery leaves the state as it was. *)
Lemma invoke_run_final (tool_parameters : gmap string PyVal) (st : State) :
  final (_invoke tool_parameters st) = st
  ∨ ∃ f T P, routed_delivery (_invoke tool_parameters st) f T P.
Proof.
  rewrite _invoke_unfold. unfold routed_delivery, invoke_run. cbv zeta.
  repeat (case_bool_decide || case_match); try by left.
  right. eexists _, _, _. cbn [yielded ending]. by rewrite last_snoc.
Qed.

Lemma self_final (tool_parameters : gmap string PyVal) (st : State) :
  self (final (_invoke tool_parameters st)) = self st.
Proof.
  destruct (invoke_run_final tool_parameters st) as [->|(f & T & P & Hr)];
    [done|].
  apply routed_delivery_inv in Hr as [-> _]. apply self_route.
Qed.

Lemma tables_final_other (tool_parameters : gmap string PyVal) (st : State)
    (l : loc) :
  l ≠ tool_file_map (self st) →
  tables (heap (final (_invoke tool_parameters st))) !! l
  = tables (heap st) !! l.
Proof.
  intros Hne.
  destruct (invoke_run_final tool_parameters st) as [->|(f & T & P & Hr)];
    [done|].
  apply routed_delivery_inv in Hr as [-> _]. by apply tables_route_other.
Qed.

(** C10 (as amended): a call never changes the file sequence, the catalog or
    the reference to the routing table, nor any other routing table of the
    store; and a routed delivery to [(T, P)] writes one entry of one inner
    dictionary, the one under [T]: every other parameter entry under [T] is
    as it was; every other inner dictionary of the store is as it was; so the
    inner mapping of another tool is as it was when that tool holds another
    dictionary than [T] does, or none, and in particular whenever the table
    holds no inner dictionary under two tool names. *)
Theorem C10_routed_dispatch_writes_one_entry_of_one_dictionary
    (tool_parameters : gmap string PyVal) (st : State) :
  let r := _invoke tool_parameters st in
  files (self (final r)) = files (self st)
  ∧ file_map (self (final r)) = file_map (self st)
  ∧ tool_file_map (self (final r)) = tool_file_map (self st)
  ∧ (∀ l, l ≠ tool_file_map (self st) →
       tables (heap (final r)) !! l = tables (heap st) !! l)
  ∧ (∀ f T P, routed_delivery r f T P →
       (∀ P', P' ≠ P → entry (table (final r)) T P' = entry (table st) T P')
       ∧ (∀ li, is_Some (dicts (heap st) !! li) → refs st !! T ≠ Some li →
            dicts (heap (final r)) !! li = dicts (heap st) !! li)
       ∧ (∀ T' li', T' ≠ T → refs st !! T' = Some li' →
            is_Some (dicts (heap st) !! li') → refs st !! T ≠ Some li' →
            table (final r) !! T' = table st !! T')
       ∧ (∀ T', T' ≠ T → refs st !! T' = None → table (final r) !! T' = None)
       ∧ (unaliased st →
          ∀ T', T' ≠ T → table (final r) !! T' = table st !! T')).
Proof.
  intros r. subst r. rewrite !self_final.
  split; [done|]. split; [done|]. split; [done|]. split.
  { intros l Hl. by apply tables_final_other. }
  intros f T P Hr. apply routed_delivery_inv in Hr as [-> _].
  split; [|split; [|split; [|split]]].
  - intros P' HP'. by apply entry_route_other_param.
  - intros li Hlive Hne. by apply dicts_route_other.
  - intros T' li' HT' Hli' Hlive Hne.
    rewrite !table_lookup, refs_route_other, Hli' by done.
    cbn [fmap option_fmap option_map]. by rewrite dicts_route_other.
  - intros T' HT' Hnone.
    by rewrite table_lookup, refs_route_other, Hnone by done.
  - intros Hun T' HT'.
    destruct (table_route_unaliased T P f st Hun) as [-> _].
    by rewrite lookup_insert_ne.
Qed.

Lemma C10_witness :
  let st := route "summarizer" "style" report_pdf
              (route "converter" "file" report_pdf st0) in
  let r := dispatch "notes.txt" "summarizer" (Some "input_file") st in
  entry (table (final r)) "summarizer" "style" = entry (table st) "summarizer" "style"
  ∧ table (final r) !! "converter" = table st !! "converter".
Proof.
  set (st := route "summarizer" "style" report_pdf
               (route "converter" "file" report_pdf st0)).
  intros r.
  destruct (C10_routed_dispatch_writes_one_entry_of_one_dictionary
              (request "notes.txt" "summarizer" (Some "input_file")) st)
    as (_ & _ & _ & _ & Hframe).
  destruct (Hframe notes_txt "summarizer" "input_file")
    as (Hparam & _ & Htool & _).
  { by_evaluation. }
  split.
  - apply (Hparam "style"). discriminate.
  - apply (Htool "converter" 1%positive).
    + discriminate.
    + vm_compute. reflexivity.
    + eexists. vm_compute. reflexivity.
    + vm_compute. discriminate.
Defined.

(** C10 (as stated) fails: the table supplied at construction holds one inner
    dictionary under the two tool names [a] and [b]; a routed delivery to
    [(a, p)] writes that dictionary, and the inner mapping of the other tool
    [b], which had no entry under [p], now has the delivered file there. *)
Lemma C10_counterexample :
  let st := __init__ [report_pdf; notes_txt] (Some 1%positive) aliased_heap in
  let r := dispatch "report.pdf" "a" (Some "p") st in
  tool_file_map (self st) = 1%positive
  ∧ routed_delivery r report_pdf "a" "p"
  ∧ "b" ≠ "a"
  ∧ table st !! "b" = Some {[ "q" := notes_txt ]}
  ∧ table (final r) !! "b" = Some {[ "p" := report_pdf; "q" := notes_txt ]}
  ∧ entry (table st) "b" "p" = None
  ∧ entry (table (final r)) "b" "p" = Some report_pdf.
Proof. by_evaluation. Qed.

(** ** Overwriting *)

(** C8: when two calls in sequence both end in a routed delivery to the same
    tool name [T] and parameter name [P], the entry [RoutingTable[T][P]] is
    the first file after the first call and, at the end, the file that the
    catalog resolves for the second call's file id. *)
Theorem C8_second_routed_dispatch_overwrites_first
    (st : State) (tool_parameters1 tool_parameters2 : gmap string PyVal)
    (f1 f2 : File) (T P : string) :
  let r1 := _invoke tool_parameters1 st in
  let r2 := _invoke tool_parameters2 (final r1) in
  routed_delivery r1 f1 T P →
  routed_delivery r2 f2 T P →
  entry (table (final r1)) T P = Some f1
  ∧ entry (table (final r2)) T P = Some f2
  ∧ resolve (file_map (self st)) (dict_get tool_parameters2 "file_id") = Some f2.
Proof.
  intros r1 r2 H1 H2. subst r1 r2.
  apply routed_delivery_inv in H2 as [-> Hf2].
  rewrite self_final in Hf2.
  apply routed_delivery_inv in H1 as [-> _].
  by rewrite !entry_route_same.
Qed.

Lemma C8_witness :
  let r1 := dispatch "report.pdf" "summarizer" (Some "input_file") st0 in
  let r2 := dispatch "notes.txt" "functions.summarizer" (Some " input_file")
              (final r1) in
  entry (table (final r1)) "summarizer" "input_file" = Some report_pdf
  ∧ entry (table (final r2)) "summarizer" "input_file" = Some notes_txt
  ∧ resolve (file_map (self st0))
      (dict_get (request "notes.txt" "functions.summarizer" (Some " input_file"))
         "file_id") = Some notes_txt.
Proof.
  apply (C8_second_routed_dispatch_overwrites_first st0
           (request "report.pdf" "summarizer" (Some "input_file"))
           (request "notes.txt" "functions.summarizer" (Some " input_file"))
           report_pdf notes_txt "summarizer" "input_file"); by_evaluation.
Defined.

(** ** The catalog built at construction *)

(** C9: construction indexes every file of the sequence by its filename;
    under a filename the catalog holds the last file of the sequence with that
    filename, in particular a file that no later file shares its filename
    with; and lookup depends on the sequence through nothing else: two
    sequences with the same last file under every filename give the same
    catalog. *)
Theorem C9_catalog_indexes_by_filename_last_wins
    (fs : list File) (tool_file_map : option loc) (h : Heap) :
  let catalog := file_map (self (__init__ fs tool_file_map h)) in
  (∀ f, f ∈ fs →
     ∃ g, catalog !! filename f = Some g ∧ g ∈ fs ∧ filename g = filename f)
  ∧ (∀ k, catalog !! k = last (named k fs))
  ∧ (∀ l1 f l2, fs = l1 ++ f :: l2 →
       (∀ g, g ∈ l2 → filename g ≠ filename f) →
       catalog !! filename f = Some f)
  ∧ (∀ fs' o' h', (∀ k, last (named k fs') = last (named k fs)) →
       file_map (self (__init__ fs' o' h')) = catalog).
Proof.
  intros catalog. subst catalog. rewrite init_file_map.
  split; [|split; [|split]].
  - intros f Hin.
    destruct (index_files fs !! filename f) as [g|] eqn:Hg.
    + exists g. split; [done|]. by apply index_files_elem.
    + rewrite index_files_lookup in Hg. apply last_None in Hg.
      assert (f ∈ named (filename f) fs) as Hf
        by (by apply list_elem_of_filter).
      rewrite Hg in Hf. by apply not_elem_of_nil in Hf.
  - apply index_files_lookup.
  - intros l1 f l2 -> Hl2. by apply index_files_later.
  - intros fs' o' h' Hlast. rewrite init_file_map. apply map_eq. intros k.
    by rewrite !index_files_lookup.
Qed.

Lemma C9_witness :
  file_map (self (__init__ [report_pdf; notes_txt; report_pdf_v2] None ∅))
    !! Some "report.pdf" = Some report_pdf_v2.
Proof.
  destruct (C9_catalog_indexes_by_filename_last_wins
              [report_pdf; notes_txt; report_pdf_v2] None ∅)
    as (_ & _ & Hlater & _).
  apply (Hlater [report_pdf; notes_txt] report_pdf_v2 []); [done|].
  intros g Hg. by apply not_elem_of_nil in Hg.
Defined.

(** ** The table supplied at construction *)

(** X2: without a supplied table the tool works on a new dictionary: its
    address was not in use, it is empty, and the dictionaries of the store are
    as they were. *)
Lemma init_without_table (fs : list File) (h : Heap) :
  let st := __init__ fs None h in
  tables h !! tool_file_map (self st) = None
  ∧ table st = ∅
  ∧ (∀ l, l ≠ tool_file_map (self st) → tables (heap st) !! l = tables h !! l)
  ∧ dicts (heap st) = dicts h.
Proof.
  unfold __init__, or_new_dict, alloc, table, table_at. simpl.
  rewrite lookup_insert_eq. split; [|split; [done|split; [|done]]].
  - apply not_elem_of_dom, is_fresh.
  - intros l Hl. by rewrite lookup_insert_ne.
Qed.

(** A supplied table with an entry is the table the tool works on. *)
Lemma init_with_nonempty_table (fs : list File) (h : Heap) (l : loc)
    (d : gmap string loc) :
  tables h !! l = Some d → d ≠ ∅ →
  let st := __init__ fs (Some l) h in
  tool_file_map (self st) = l ∧ heap st = h.
Proof.
  intros Hl Hd. unfold __init__, or_new_dict. rewrite Hl. simpl.
  by rewrite bool_decide_eq_false_2.
Qed.

(** C4 (the code at the failing inputs): when the supplied table is an empty
    dictionary, [tool_file_map or {}] takes the new dictionary.  The tool then
    works on a table other than the supplied one; the supplied table stays
    empty through every call, and the file of a routed delivery is found in
    the tool's table only. *)
Theorem C4_supplied_empty_table_is_replaced
    (fs : list File) (h : Heap) (l : loc) (tool_parameters : gmap string PyVal) :
  tables h !! l = Some ∅ →
  let st := __init__ fs (Some l) h in
  let r := _invoke tool_parameters st in
  tool_file_map (self st) ≠ l
  ∧ tables (heap st) !! l = Some ∅
  ∧ tables (heap (final r)) !! l = Some ∅
  ∧ ∀ f T P, routed_delivery r f T P →
      entry (table (final r)) T P = Some f
      ∧ entry (table_at (heap (final r)) l) T P = None.
Proof.
  intros Hl st r.
  assert (tool_file_map (self st) ≠ l ∧ tables (heap st) !! l = Some ∅)
    as [Hne Hst].
  { subst st. unfold __init__, or_new_dict, alloc. rewrite Hl. simpl.
    rewrite bool_decide_eq_true_2 by done. simpl.
    assert (fresh (dom (tables h)) ≠ l) as Hne.
    { intros Heq. pose proof (is_fresh (dom (tables h))) as Hfresh.
      rewrite Heq in Hfresh. apply Hfresh, elem_of_dom. by eexists. }
    split; [done|]. by rewrite lookup_insert_ne. }
  assert (tables (heap (final r)) !! l = Some ∅) as Hr.
  { subst r. by rewrite tables_final_other. }
  repeat split; [done..| |].
  - apply routed_delivery_inv in H as [Hfin _]. subst r. rewrite Hfin.
    apply entry_route_same.
  - unfold table_at. by rewrite Hr.
Qed.

Lemma C4_witness :
  let h : Heap := {| tables := {[ 1%positive := ∅ ]}; dicts := ∅ |} in
  let st := __init__ [report_pdf] (Some 1%positive) h in
  let r := dispatch "report.pdf" "summarizer" (Some "input_file") st in
  tool_file_map (self st) ≠ 1%positive
  ∧ tables (heap st) !! 1%positive = Some ∅
  ∧ tables (heap (final r)) !! 1%positive = Some ∅
  ∧ ∀ f T P, routed_delivery r f T P →
      entry (table (final r)) T P = Some f
      ∧ entry (table_at (heap (final r)) 1%positive) T P = None.
Proof.
  apply (C4_supplied_empty_table_is_replaced
           [report_pdf] {| tables := {[ 1%positive := ∅ ]}; dicts := ∅ |}
           1%positive
           (request "report.pdf" "summarizer" (Some "input_file"))).
  reflexivity.
Defined.

(** The supplied table of the scenario is shared once it has an entry. *)
Example supplied_nonempty_table_is_shared :
  let st := __init__ [report_pdf] (Some 1%positive) shared_heap in
  let r := dispatch "report.pdf" "summarizer" (Some "input_file") st in
  tool_file_map (self st) = 1%positive
  ∧ entry (table_at (heap (final r)) 1%positive) "summarizer" "input_file"
    = Some report_pdf.
Proof. by_evaluation. Qed.

(** ** Trimmed strings *)

Lemma rstrip_idemp (s : string) : rstrip (rstrip s) = rstrip s.
Proof.
  induction s as [|c s IH]; [done|]. cbn [rstrip].
  destruct (isspace c && bool_decide (rstrip s = "")) eqn:Hc; [done|].
  cbn [rstrip]. by rewrite IH, Hc.
Qed.

Lemma rstrip_tail (c : ascii) (s : string) :
  rstrip (String c s) = String c s → rstrip s = s.
Proof.
  cbn [rstrip].
  destruct (isspace c && bool_decide (rstrip s = "")); [done|]. by intros [= ->].
Qed.

Lemma rstrip_slice_from (n : nat) (s : string) :
  rstrip s = s → rstrip (slice_from n s) = slice_from n s.
Proof.
  revert s. induction n as [|n IH]; intros s Hs; [done|].
  destruct s as [|c s]; [done|]. cbn [slice_from].
  by apply IH, rstrip_tail with c.
Qed.

Lemma lstrip_rstrip_lstrip (s : string) :
  lstrip (rstrip (lstrip s)) = rstrip (lstrip s).
Proof.
  assert (lstrip s = "" ∨ ∃ c s', lstrip s = String c s' ∧ isspace c = false)
    as [->|(c & s' & -> & Hc)]; [|done|].
  { induction s as [|c s IH]; [by left|]. cbn [lstrip].
    destruct (isspace c) eqn:Hc; [done|]. right. by exists c, s. }
  cbn [rstrip]. rewrite Hc. cbn [andb lstrip]. by rewrite Hc.
Qed.

Lemma strip_idemp (s : string) : strip (strip s) = strip s.
Proof. unfold strip. by rewrite lstrip_rstrip_lstrip, rstrip_idemp. Qed.

Lemma rstrip_strip (s : string) : rstrip (strip s) = strip s.
Proof. unfold strip. apply rstrip_idemp. Qed.

Lemma rstrip_normalize (t : string) : rstrip (normalize t) = normalize t.
Proof.
  unfold normalize. destruct (startswith (strip t) "functions.").
  - apply rstrip_slice_from, rstrip_strip.
  - apply rstrip_strip.
Qed.

(** ** Routing twice *)

Lemma route_idemp (T P : string) (f : File) (st : State) :
  route T P f (route T P f st) = route T P f st.
Proof.
  unfold route at 1. rewrite refs_route_same, self_route.
  set (li := default (fresh (dom (dicts (heap st)))) (refs st !! T)).
  assert (dicts (heap (route T P f st)) !! li
          = Some (<[P := f]>
                    (default ∅ (refs st !! T ≫= (dicts (heap st) !!.)))))
    as Hli by (rewrite dicts_route; apply lookup_insert_eq).
  rewrite Hli. cbn [default from_option id].
  rewrite insert_insert_eq, (insert_id _ _ _ Hli).
  rewrite <- (self_route T P f st) at 1.
  by destruct (route T P f st) as [? []].
Qed.

Lemma insert_entry_comm (d : RoutingTable) (T1 P1 T2 P2 : string) (f1 f2 : File) :
  (T1, P1) ≠ (T2, P2) →
  (let d1 := <[T1 := <[P1 := f1]> (default ∅ (d !! T1))]> d in
   <[T2 := <[P2 := f2]> (default ∅ (d1 !! T2))]> d1)
  = (let d2 := <[T2 := <[P2 := f2]> (default ∅ (d !! T2))]> d in
     <[T1 := <[P1 := f1]> (default ∅ (d2 !! T1))]> d2).
Proof.
  intros Hne. cbv zeta.
  destruct (decide (T1 = T2)) as [->|HT].
  - assert (P1 ≠ P2) as HP by congruence.
    rewrite !lookup_insert_eq. simpl. rewrite !insert_insert_eq.
    f_equal. by apply insert_insert_ne.
  - rewrite !lookup_insert_ne by done. by apply insert_insert_ne.
Qed.

(** ** Which calls deliver *)

(** What a call reads: the three parameters and the tool object, not the
    store. *)
Lemma invoke_yielded_ending (tool_parameters : gmap string PyVal) (st st' : State) :
  self st' = self st →
  yielded (_invoke tool_parameters st') = yielded (_invoke tool_parameters st)
  ∧ ending (_invoke tool_parameters st') = ending (_invoke tool_parameters st).
Proof.
  intros Hself. rewrite !_invoke_unfold. unfold invoke_run. rewrite Hself.
  cbv zeta. repeat (case_bool_decide || case_match); done.
Qed.

(** X3: a call ends in a routed delivery of [f] to [(T, P)] exactly when the
    file id is a non-empty string that the catalog resolves to [f], the target
    is a non-empty string other than [self] whose normalized form is the
    non-empty [T], and the parameter name (default [file]) is a string whose
    trimmed form is the non-empty [P]. *)
Theorem routed_delivery_iff
    (tool_parameters : gmap string PyVal) (st : State) (f : File) (T P : string) :
  routed_delivery (_invoke tool_parameters st) f T P
  ↔ routes tool_parameters (self st) f T P.
Proof.
  split; [apply routed_delivery_routes|].
  intros Hr. apply routes_run in Hr as (ms & _ & _ & ->).
  split; [done|]. cbn [yielded]. by rewrite last_snoc.
Qed.

Lemma self_delivery_inv
    (tool_parameters : gmap string PyVal) (st : State) (f : File) :
  self_delivery (_invoke tool_parameters st) f →
  ∃ fileId,
    dict_get tool_parameters "file_id" = VStr fileId
    ∧ fileId ≠ ""
    ∧ file_map (self st) !! Some fileId = Some f
    ∧ dict_get tool_parameters "target" = VStr "self".
Proof.
  rewrite _invoke_unfold. unfold self_delivery, invoke_run. cbv zeta.
  destruct (dict_get tool_parameters "file_id") as [|fid|b|z|nz tx|ne tx|ne tx];
    [stopped| |stopped..].
  cbn [truthy resolve]. case_bool_decide as Hfid; [stopped|]. cbn [negb].
  destruct (file_map (self st) !! Some fid) as [f'|] eqn:Hf; [|stopped].
  destruct (dict_get tool_parameters "target") as [|t|b|z|nz tx|ne tx|ne tx];
    [stopped| |stopped..].
  cbn [truthy]. case_bool_decide as Ht; [stopped|]. cbn [negb].
  case_bool_decide as Hself.
  - intros [_ Hl]. cbn [yielded last] in Hl.
    assert (f' = f) as ->.
    { assert (self_meta f' = self_meta f) as Heq by congruence.
      apply (f_equal (.!! "file")) in Heq. unfold self_meta in Heq.
      by simplify_map_eq. }
    exists fid. by rewrite Hself.
  - destruct (dict_get_default tool_parameters "parameter_name" (VStr "file"))
      as [|p|b|z|nz tx|ne tx|ne tx]; [stopped| |stopped..].
    repeat case_bool_decide; [by intros [? ?]..|].
    cbn [yielded ending final]. rewrite last_snoc. intros [_ Hl].
    exfalso.
    apply (self_meta_not_tool_meta f f' (normalize t) (strip p)).
    congruence.
Qed.

(** X4: a call ends in a self delivery of [f] exactly when the file id is a
    non-empty string that the catalog resolves to [f] and the target is the
    string [self], character for character; the parameter name plays no
    part. *)
Theorem self_delivery_iff
    (tool_parameters : gmap string PyVal) (st : State) (f : File) :
  self_delivery (_invoke tool_parameters st) f
  ↔ ∃ fileId,
      dict_get tool_parameters "file_id" = VStr fileId
      ∧ fileId ≠ ""
      ∧ file_map (self st) !! Some fileId = Some f
      ∧ dict_get tool_parameters "target" = VStr "self".
Proof.
  split; [apply self_delivery_inv|].
  rewrite _invoke_unfold. unfold self_delivery, invoke_run.
  intros (fid & -> & Hfid & Hf & ->). cbn [truthy resolve].
  rewrite (bool_decide_eq_false_2 (fid = "")) by done. cbn [negb].
  by rewrite Hf.
Qed.


(** X6: a call that does not run to the end of the generator, because it
    returns after a diagnostic or raises, leaves the state as it was; and it
    yields text messages only. *)
Theorem stopped_call_changes_nothing
    (tool_parameters : gmap string PyVal) (st : State) :
  ending (_invoke tool_parameters st) ≠ Value tt →
  final (_invoke tool_parameters st) = st
  ∧ Forall (λ m, ∃ text, m = TextMessage text)
      (yielded (_invoke tool_parameters st)).
Proof.
  rewrite _invoke_unfold. unfold invoke_run, notes. cbv zeta.
  repeat (case_bool_decide || case_match); intros Hend; try done;
    (split; [done|]); repeat constructor; by eexists.
Qed.

Lemma stopped_call_changes_nothing_witness :
  final (_invoke (<["parameter_name" := VNone]>
                    (request "report.pdf" "summarizer" None)) st0) = st0
  ∧ Forall (λ m, ∃ text, m = TextMessage text)
      (yielded (_invoke (<["parameter_name" := VNone]>
                           (request "report.pdf" "summarizer" None)) st0)).
Proof.
  apply (stopped_call_changes_nothing
           (<["parameter_name" := VNone]> (request "report.pdf" "summarizer" None))
           st0).
  vm_compute. discriminate.
Defined.

(** X7: the messages of a call: at most two; every message but the last is a
    text message; a [FILE] message, if any, is the last one; and the last
    message is a [FILE] message exactly when the generator runs to its end. *)
Theorem yielded_messages_shape
    (tool_parameters : gmap string PyVal) (st : State) :
  let r := _invoke tool_parameters st in
  length (yielded r) ≤ 2
  ∧ (∀ i m, yielded r !! i = Some m → S i < length (yielded r) →
       ∃ text, m = TextMessage text)
  ∧ (ending r = Value tt ↔ ∃ meta, last (yielded r) = Some (FileMessage meta)).
Proof.
  intros r. subst r. rewrite _invoke_unfold. unfold invoke_run, notes. cbv zeta.
  repeat (case_bool_decide || case_match); cbn [yielded ending app length last];
    (split; [lia|split]);
    lazymatch goal with
    | |- ∀ i m, _ =>
        intros [|[|i]] m Hm Hi; cbn in Hm, Hi; try lia;
        injection Hm as <-; by eexists
    | |- _ ↔ _ => split; [by eauto|by intros [meta Hm]]
    end.
Qed.


Example number_as_target_raises :
  _invoke {[ "file_id" := VStr "report.pdf"; "target" := VInt 123 ]} st0
  = mkRun [] (Raised (AttributeError "'int' object has no attribute 'strip'"))
      st0.
Proof. by_evaluation. Qed.

Example list_as_file_id_raises :
  _invoke {[ "file_id" := VList true "['x']" ]} st0
  = mkRun [] (Raised (TypeError "unhashable type: 'list'")) st0.
Proof. by_evaluation. Qed.

Example number_as_file_id_is_not_found :
  _invoke {[ "file_id" := VInt 7; "target" := VStr "self" ]} st0
  = mkRun [TextMessage "File with ID '7' not found"] Returned st0.
Proof. by_evaluation. Qed.

(** ** How calls compose *)

Lemma routed_run_any_store
    (tool_parameters : gmap string PyVal) (st st' : State) (f : File) (T P : string) :
  self st' = self st →
  routed_delivery (_invoke tool_parameters st) f T P →
  routed_delivery (_invoke tool_parameters st') f T P
  ∧ final (_invoke tool_parameters st') = route T P f st'.
Proof.
  intros Hself Hr. apply routed_delivery_routes in Hr. rewrite <- Hself in Hr.
  apply routes_run in Hr as (ms & _ & _ & ->).
  split; [|done]. split; [done|]. cbn [yielded]. by rewrite last_snoc.
Qed.

(** X8: what a call yields and how it ends depends on the parameters and on
    the tool object only, never on the contents of the routing table or of
    the rest of the store: an entry already present under the pair neither
    fails the call nor changes its messages. *)
Theorem outcome_does_not_depend_on_the_table
    (tool_parameters : gmap string PyVal) (st st' : State) :
  self st' = self st →
  yielded (_invoke tool_parameters st') = yielded (_invoke tool_parameters st)
  ∧ ending (_invoke tool_parameters st') = ending (_invoke tool_parameters st).
Proof. apply invoke_yielded_ending. Qed.

Lemma outcome_does_not_depend_on_the_table_witness :
  let tool_parameters := request "notes.txt" "summarizer" (Some "input_file") in
  let st' := route "summarizer" "input_file" report_pdf st0 in
  yielded (_invoke tool_parameters st') = yielded (_invoke tool_parameters st0)
  ∧ ending (_invoke tool_parameters st') = ending (_invoke tool_parameters st0).
Proof.
  apply (outcome_does_not_depend_on_the_table
           (request "notes.txt" "summarizer" (Some "input_file")) st0
           (route "summarizer" "input_file" report_pdf st0)).
  reflexivity.
Defined.

(** X9: a call repeated with the same parameters is idempotent: the second run
    yields the same messages, ends the same way and leaves the state the
    first run left. *)
Theorem repeated_call_is_idempotent
    (tool_parameters : gmap string PyVal) (st : State) :
  _invoke tool_parameters (final (_invoke tool_parameters st))
  = _invoke tool_parameters st.
Proof.
  destruct (invoke_run_final tool_parameters st) as [->|(f & T & P & Hr)];
    [done|].
  destruct (routed_run_any_store tool_parameters st st f T P eq_refl Hr)
    as [_ Hfin].
  pose proof Hr as Hroutes. apply routed_delivery_routes in Hroutes.
  pose proof Hroutes as Hrun. apply routes_run in Hrun as (ms & _ & _ & Hrun).
  rewrite Hrun. cbn [final].
  rewrite <- (self_route T P f st) in Hroutes.
  apply routes_run in Hroutes as (ms' & _ & _ & Hrun').
  rewrite Hrun', route_idemp. f_equal.
  pose proof (invoke_yielded_ending tool_parameters st (route T P f st)
                (self_route T P f st)) as [Hy _].
  by rewrite Hrun, Hrun' in Hy.
Qed.

Lemma unaliased_final (tool_parameters : gmap string PyVal) (st : State) :
  unaliased st → unaliased (final (_invoke tool_parameters st)).
Proof.
  intros Hun.
  destruct (invoke_run_final tool_parameters st) as [->|(f & T & P & Hr)];
    [done|].
  apply routed_delivery_inv in Hr as [-> _].
  by apply table_route_unaliased.
Qed.

(** X10: on a routing table that holds no inner dictionary under two tool
    names, two calls that end in routed deliveries to different (tool name,
    parameter name) pairs commute: run in either order from the same state,
    they leave the same routing table, as a mapping.  (With an inner
    dictionary shared by two tool names the later write wins and the orders
    differ.) *)
Theorem routed_calls_to_different_pairs_commute
    (tool_parameters1 tool_parameters2 : gmap string PyVal) (st : State)
    (f1 f2 : File) (T1 P1 T2 P2 : string) :
  unaliased st →
  routed_delivery (_invoke tool_parameters1 st) f1 T1 P1 →
  routed_delivery (_invoke tool_parameters2 st) f2 T2 P2 →
  (T1, P1) ≠ (T2, P2) →
  table (final (_invoke tool_parameters2 (final (_invoke tool_parameters1 st))))
  = table (final (_invoke tool_parameters1 (final (_invoke tool_parameters2 st)))).
Proof.
  intros Hun H1 H2 Hne.
  destruct (routed_run_any_store _ st st f1 T1 P1 eq_refl H1) as [_ ->].
  destruct (routed_run_any_store _ st st f2 T2 P2 eq_refl H2) as [_ ->].
  destruct (routed_run_any_store _ st (route T1 P1 f1 st) f2 T2 P2
              (self_route _ _ _ _) H2) as [_ ->].
  destruct (routed_run_any_store _ st (route T2 P2 f2 st) f1 T1 P1
              (self_route _ _ _ _) H1) as [_ ->].
  destruct (table_route_unaliased T1 P1 f1 st Hun) as [Ht1 Hun1].
  destruct (table_route_unaliased T2 P2 f2 st Hun) as [Ht2 Hun2].
  destruct (table_route_unaliased T2 P2 f2 _ Hun1) as [-> _].
  destruct (table_route_unaliased T1 P1 f1 _ Hun2) as [-> _].
  rewrite Ht1, Ht2. by apply insert_entry_comm.
Qed.

Lemma routed_calls_to_different_pairs_commute_witness :
  let c1 := request "report.pdf" "summarizer" (Some "input_file") in
  let c2 := request "notes.txt" "functions.summarizer" (Some "style") in
  table (final (_invoke c2 (final (_invoke c1 st0))))
  = table (final (_invoke c1 (final (_invoke c2 st0)))).
Proof.
  apply (routed_calls_to_different_pairs_commute
           (request "report.pdf" "summarizer" (Some "input_file"))
           (request "notes.txt" "functions.summarizer" (Some "style"))
           st0 report_pdf notes_txt "summarizer" "input_file" "summarizer" "style").
  - split.
    + intros T li Hl. vm_compute in Hl. discriminate.
    + intros T1 T2 li Hl. vm_compute in Hl. discriminate.
  - by_evaluation.
  - by_evaluation.
  - discriminate.
Defined.

(** X11: no call removes an entry of the routing table: an entry present
    before the call is present after it, with the same file unless the call is
    a routed delivery under the same parameter name that writes the inner
    dictionary of that entry; on a table that holds no inner dictionary under
    two tool names, that is a routed delivery to that very pair.  The entry
    then holds the delivered file. *)
Theorem no_call_removes_an_entry
    (tool_parameters : gmap string PyVal) (st : State) (T P : string) (g : File) :
  entry (table st) T P = Some g →
  let r := _invoke tool_parameters st in
  (entry (table (final r)) T P = Some g
   ∨ ∃ f T', routed_delivery r f T' P ∧ entry (table (final r)) T P = Some f)
  ∧ (unaliased st →
     entry (table (final r)) T P = Some g
     ∨ ∃ f, routed_delivery r f T P ∧ entry (table (final r)) T P = Some f).
Proof.
  intros Hg r. subst r.
  destruct (invoke_run_final tool_parameters st) as [->|(f & T' & P' & Hr)];
    [split; [by left|by left]|].
  pose proof Hr as Hfin. apply routed_delivery_inv in Hfin as [Hfin _].
  rewrite Hfin.
  destruct (decide (T' = T)) as [->|HT].
  - destruct (decide (P' = P)) as [->|HP].
    + rewrite entry_route_same. split; [right; by exists f, T|].
      intros _. right. by exists f.
    + rewrite entry_route_other_param by done. split; [by left|by left].
  - split.
    + destruct (table_route_other T' T P' f st) as [Heq|(v & Hv & Heq)];
        [done| |].
      * left. unfold entry in *. by rewrite Heq.
      * unfold entry in *. rewrite Heq. rewrite Hv in Hg. cbn in Hg |- *.
        destruct (decide (P' = P)) as [->|HP].
        -- right. exists f, T'. by rewrite lookup_insert_eq.
        -- left. by rewrite lookup_insert_ne.
    + intros Hun. left.
      destruct (table_route_unaliased T' P' f st Hun) as [-> _].
      unfold entry in *. by rewrite lookup_insert_ne.
Qed.

Lemma no_call_removes_an_entry_witness :
  let st := route "summarizer" "input_file" report_pdf st0 in
  let r := _invoke (request "notes.txt" "converter" None) st in
  (entry (table (final r)) "summarizer" "input_file" = Some report_pdf
   ∨ ∃ f T', routed_delivery r f T' "input_file"
             ∧ entry (table (final r)) "summarizer" "input_file" = Some f)
  ∧ (unaliased st →
     entry (table (final r)) "summarizer" "input_file" = Some report_pdf
     ∨ ∃ f, routed_delivery r f "summarizer" "input_file"
            ∧ entry (table (final r)) "summarizer" "input_file" = Some f).
Proof.
  apply (no_call_removes_an_entry (request "notes.txt" "converter" None)
           (route "summarizer" "input_file" report_pdf st0)
           "summarizer" "input_file" report_pdf).
  vm_compute. reflexivity.
Defined.

(** ** Invariants of a session *)

Lemma self_invoke_all (calls : list (gmap string PyVal)) (st : State) :
  self (invoke_all calls st) = self st.
Proof.
  revert st. induction calls as [|c calls IH]; intros st; [done|].
  unfold invoke_all in *. cbn [foldl]. by rewrite IH, self_final.
Qed.

(** The mapping under a tool name after a routed delivery: the written one,
    an old one, or an old one with the same write. *)
Lemma table_route_cases (T T' P : string) (f : File) (st : State)
    (inner : gmap string File) :
  table (route T P f st) !! T' = Some inner →
  (T' = T ∧ inner = <[P := f]> (default ∅ (table st !! T)))
  ∨ table st !! T' = Some inner
  ∨ ∃ v, table st !! T' = Some v ∧ inner = <[P := f]> v.
Proof.
  intros Hl. destruct (decide (T' = T)) as [->|Hne].
  - left. rewrite table_route_same in Hl. by injection Hl as <-.
  - right. destruct (table_route_other T T' P f st Hne) as [Heq|(v & Hv & Heq)].
    + left. by rewrite <- Heq.
    + right. exists v. split; [done|]. rewrite Heq in Hl. by injection Hl as <-.
Qed.

Lemma keys_normalized_step (tool_parameters : gmap string PyVal) (st : State) :
  keys_normalized (table st) →
  keys_normalized (table (final (_invoke tool_parameters st))).
Proof.
  intros Hk.
  destruct (invoke_run_final tool_parameters st) as [->|(f & T & P & Hr)];
    [done|].
  pose proof Hr as Hfin. apply routed_delivery_inv in Hfin as [-> _].
  apply routed_delivery_routes in Hr
    as (fid & t & p & _ & _ & _ & _ & _ & _ & _ & -> & HT & -> & HP).
  assert (∀ v : gmap string File,
            (∀ P' g, v !! P' = Some g → P' ≠ "" ∧ strip P' = P') →
            <[strip p := f]> v ≠ ∅
            ∧ ∀ P' g, <[strip p := f]> v !! P' = Some g →
                P' ≠ "" ∧ strip P' = P') as Hins.
  { intros v Hv. split; [apply insert_non_empty|]. intros P' g HP'.
    destruct (decide (strip p = P')) as [<-|HneP].
    - split; [done|apply strip_idemp].
    - rewrite lookup_insert_ne in HP' by done. by eapply Hv. }
  intros T' inner Hl.
  apply table_route_cases in Hl as [[-> ->]|[Hl|(v & Hv & ->)]].
  - split; [done|]. split; [apply rstrip_normalize|]. apply Hins.
    destruct (table st !! normalize t) as [v|] eqn:Hv; [|done].
    by apply (Hk _ _ Hv).
  - by apply Hk.
  - destruct (Hk _ _ Hv) as (? & ? & _ & Hent).
    split; [done|]. split; [done|]. by apply Hins.
Qed.

Lemma files_resolved_step (tool_parameters : gmap string PyVal) (st : State) :
  files_resolved (file_map (self st)) (table st) →
  files_resolved (file_map (self st))
    (table (final (_invoke tool_parameters st))).
Proof.
  intros Hk.
  destruct (invoke_run_final tool_parameters st) as [->|(f & T & P & Hr)];
    [done|].
  pose proof Hr as Hfin. apply routed_delivery_inv in Hfin as [-> _].
  apply routed_delivery_routes in Hr
    as (fid & t & p & _ & Hfid & Hf & _).
  assert (∀ v : gmap string File, ∀ P' g,
            (∀ P'' g', v !! P'' = Some g' →
               ∃ fileId, fileId ≠ "" ∧ file_map (self st) !! Some fileId = Some g') →
            <[P := f]> v !! P' = Some g →
            ∃ fileId, fileId ≠ "" ∧ file_map (self st) !! Some fileId = Some g)
    as Hins.
  { intros v P' g Hv HP'. destruct (decide (P = P')) as [<-|HneP].
    - rewrite lookup_insert_eq in HP'. injection HP' as <-. by exists fid.
    - rewrite lookup_insert_ne in HP' by done. by eapply Hv. }
  intros T' P' g Hg. unfold entry in Hg.
  destruct (table (route T P f st) !! T') as [inner|] eqn:Hl; [|done].
  cbn in Hg.
  apply table_route_cases in Hl as [[-> ->]|[Hl|(v & Hv & ->)]].
  - eapply Hins; [|done]. intros P'' g' Hg'. apply (Hk T P'').
    unfold entry. by destruct (table st !! T).
  - apply (Hk T' P'). unfold entry. by rewrite Hl.
  - eapply Hins; [|done]. intros P'' g' Hg'. apply (Hk T' P'').
    unfold entry. by rewrite Hv.
Qed.

Lemma table_init (fs : list File) (o : option loc) (h : Heap) :
  table (__init__ fs o h) = default ∅ (table_at h <$> o).
Proof.
  unfold __init__, or_new_dict, alloc, table, table_at.
  destruct o as [l|]; simpl; [|by rewrite lookup_insert_eq].
  case_bool_decide as Hd; simpl; [|done].
  by rewrite lookup_insert_eq, Hd.
Qed.

(** X12: the keys of the routing table stay normalized through any sequence
    of calls: if the table the tool is built over (the supplied one, or the
    empty one) has non-empty tool names that do not end in white space,
    non-empty inner mappings and non-empty trimmed parameter names, so has the
    table after the calls.  In particular the empty inner mapping that a call
    creates for a new tool name is never left empty. *)
Theorem session_keeps_keys_normalized
    (fs : list File) (o : option loc) (h : Heap)
    (calls : list (gmap string PyVal)) :
  keys_normalized (default ∅ (table_at h <$> o)) →
  keys_normalized (table (invoke_all calls (__init__ fs o h))).
Proof.
  rewrite <- (table_init fs). generalize (__init__ fs o h). clear.
  induction calls as [|c calls IH]; intros st Hk; [done|].
  unfold invoke_all in *. cbn [foldl]. by apply IH, keys_normalized_step.
Qed.

Lemma session_keeps_keys_normalized_witness :
  "summarizer" ≠ "" ∧ rstrip "summarizer" = "summarizer"
  ∧ ({[ "input_file" := report_pdf ]} : gmap string File) ≠ ∅
  ∧ ∀ P g, ({[ "input_file" := report_pdf ]} : gmap string File) !! P = Some g →
      P ≠ "" ∧ strip P = P.
Proof.
  apply (session_keeps_keys_normalized [report_pdf; notes_txt] None ∅
           [request "report.pdf" " functions.summarizer " (Some " input_file ");
            request "notes.txt" "self" None;
            request "notes.txt" "converter" None]).
  - intros T inner Hl. vm_compute in Hl. discriminate.
  - vm_compute. reflexivity.
Defined.

(** X13: the files of the routing table stay catalog files through any
    sequence of calls: if every file of the table the tool is built over is
    resolved by the catalog under a non-empty file id, so is every file of the
    table after the calls; each is then a file of the sequence given at
    construction, the last one carrying its filename. *)
Theorem session_keeps_files_resolved
    (fs : list File) (o : option loc) (h : Heap)
    (calls : list (gmap string PyVal)) :
  files_resolved (index_files fs) (default ∅ (table_at h <$> o)) →
  let st := invoke_all calls (__init__ fs o h) in
  files_resolved (index_files fs) (table st)
  ∧ ∀ T P g, entry (table st) T P = Some g →
      g ∈ fs ∧ last (named (filename g) fs) = Some g
      ∧ ∃ fileId, filename g = Some fileId ∧ fileId ≠ "".
Proof.
  intros Hk st.
  assert (files_resolved (index_files fs) (table st)) as Hres.
  { subst st. rewrite <- (table_init fs) in Hk.
    rewrite <- (init_file_map fs o h) in *.
    revert Hk. generalize (__init__ fs o h). clear.
    induction calls as [|c calls IH]; intros st Hk; [done|].
    unfold invoke_all in *. cbn [foldl].
    rewrite <- (self_final c st). apply IH. rewrite self_final.
    by apply files_resolved_step. }
  split; [done|]. intros T P g Hg.
  destruct (Hres T P g Hg) as (fid & Hfid & Hl).
  pose proof (index_files_elem _ _ _ Hl) as [Hin Hname].
  rewrite Hname, <- index_files_lookup. split; [done|]. split; [done|].
  by exists fid.
Qed.

Lemma session_keeps_files_resolved_witness :
  let st := invoke_all
              [request "report.pdf" "summarizer" (Some "input_file");
               request "notes.txt" "summarizer" (Some "input_file")]
              (__init__ [report_pdf; notes_txt] None ∅) in
  files_resolved (index_files [report_pdf; notes_txt]) (table st)
  ∧ ∀ T P g, entry (table st) T P = Some g →
      g ∈ [report_pdf; notes_txt]
      ∧ last (named (filename g) [report_pdf; notes_txt]) = Some g
      ∧ ∃ fileId, filename g = Some fileId ∧ fileId ≠ "".
Proof.
  apply (session_keeps_files_resolved [report_pdf; notes_txt] None ∅).
  intros T P g Hg. vm_compute in Hg. discriminate.
Defined.

(** X14: a delivery carries the file the caller named: in a tool whose
    catalog was built from [fs], the file of a self delivery or of a routed
    delivery is a file of [fs] whose filename is the string passed as
    [file_id], and among the files with that filename it is the last one; a
    file shadowed by a later file of the same name is never delivered. *)
Theorem delivered_file_is_the_last_one_named_by_file_id
    (fs : list File) (st : State) (tool_parameters : gmap string PyVal) (f : File) :
  file_map (self st) = index_files fs →
  (self_delivery (_invoke tool_parameters st) f
   ∨ ∃ T P, routed_delivery (_invoke tool_parameters st) f T P) →
  f ∈ fs
  ∧ VStr <$> filename f = Some (dict_get tool_parameters "file_id")
  ∧ last (named (filename f) fs) = Some f.
Proof.
  intros Hcat Hd.
  assert (∃ fid, dict_get tool_parameters "file_id" = VStr fid
                 ∧ index_files fs !! Some fid = Some f) as (fid & -> & Hl).
  { rewrite <- Hcat. destruct Hd as [Hs|(T & P & Hr)].
    - apply self_delivery_inv in Hs as (fid & ? & _ & ? & _). by exists fid.
    - apply routed_delivery_routes in Hr as (fid & t & p & ? & _ & ? & _).
      by exists fid. }
  pose proof (index_files_elem _ _ _ Hl) as [Hin Hname].
  by rewrite Hname, <- index_files_lookup.
Qed.

Lemma delivered_file_is_the_last_one_named_by_file_id_witness :
  report_pdf_v2 ∈ [report_pdf; notes_txt; report_pdf_v2]
  ∧ VStr <$> filename report_pdf_v2
    = Some (dict_get (request "report.pdf" "summarizer" None) "file_id")
  ∧ last (named (filename report_pdf_v2) [report_pdf; notes_txt; report_pdf_v2])
    = Some report_pdf_v2.
Proof.
  apply (delivered_file_is_the_last_one_named_by_file_id
           [report_pdf; notes_txt; report_pdf_v2]
           (__init__ [report_pdf; notes_txt; report_pdf_v2] None ∅)
           (request "report.pdf" "summarizer" None) report_pdf_v2).
  - by_evaluation.
  - right. exists "summarizer", "file". by_evaluation.
Defined.

(** ** The catalog as a set of names *)

Lemma dom_index_files (fs : list File) :
  dom (index_files fs) = list_to_set (filename <$> fs).
Proof.
  induction fs as [|f fs IH] using rev_ind; [done|].
  rewrite index_files_snoc, dom_insert_L, IH, fmap_app, list_to_set_app_L.
  simpl. rewrite (right_id_L ∅ (∪)). apply (comm_L (∪)).
Qed.

Lemma size_index_files_le (fs : list File) :
  base.size (index_files fs) ≤ length fs.
Proof.
  induction fs as [|f fs IH] using rev_ind; [done|].
  rewrite index_files_snoc, map_size_insert, length_app. simpl.
  destruct (index_files fs !! filename f); simpl; lia.
Qed.

(** X15: the keys of the catalog are exactly the filenames of the sequence, a
    missing filename ([None]) included; the catalog has at most as many
    entries as there are files, and exactly as many when the filenames are
    unique; and with unique filenames the order of the sequence plays no part:
    a permutation of the files gives the same catalog. *)
Theorem catalog_keys_are_the_filenames (fs : list File) :
  dom (index_files fs) = list_to_set (filename <$> fs)
  ∧ base.size (index_files fs) ≤ length fs
  ∧ (NoDup (filename <$> fs) → base.size (index_files fs) = length fs)
  ∧ (∀ fs', NoDup (filename <$> fs) → fs ≡ₚ fs' →
       index_files fs' = index_files fs).
Proof.
  split; [apply dom_index_files|]. split; [|split].
  - apply size_index_files_le.
  - intros Hnd. rewrite <- size_dom, dom_index_files.
    rewrite size_list_to_set by done. by rewrite length_fmap.
  - intros fs' Hnd Hperm. apply map_eq. intros k.
    assert (NoDup (filename <$> fs')) as Hnd' by (by rewrite <- Hperm).
    apply option_eq. intros g. split; intros Hg.
    + apply index_files_elem in Hg as [Hin <-].
      apply index_files_NoDup; [done|]. by rewrite Hperm.
    + apply index_files_elem in Hg as [Hin <-].
      apply index_files_NoDup; [done|]. by rewrite <- Hperm.
Qed.

Lemma catalog_keys_are_the_filenames_witness :
  index_files [notes_txt; report_pdf] = index_files [report_pdf; notes_txt].
Proof.
  destruct (catalog_keys_are_the_filenames [report_pdf; notes_txt])
    as (_ & _ & _ & Hperm).
  apply Hperm.
  - by_evaluation.
  - apply Permutation_swap.
Defined.

(** ** Construction and the store *)

(** X16: construction never changes a dictionary that exists: whatever is
    supplied, every routing table and every inner dictionary of the store is
    afterwards what it was; and the table the tool works on has the contents
    of the supplied table, or is empty when none is supplied. *)
Theorem construction_leaves_the_store_intact
    (fs : list File) (o : option loc) (h : Heap) (l : loc)
    (d : gmap string loc) :
  tables h !! l = Some d →
  let st := __init__ fs o h in
  tables (heap st) !! l = Some d
  ∧ dicts (heap st) = dicts h
  ∧ table st = default ∅ (table_at h <$> o)
  ∧ files (self st) = fs.
Proof.
  intros Hl st. subst st. rewrite table_init, init_files.
  assert (fresh (dom (tables h)) ≠ l) as Hne.
  { intros Heq. pose proof (is_fresh (dom (tables h))) as Hfresh.
    rewrite Heq in Hfresh. apply Hfresh, elem_of_dom. by eexists. }
  unfold __init__, or_new_dict, alloc.
  destruct o as [l'|]; simpl; [|by rewrite lookup_insert_ne].
  case_bool_decide; simpl; [|done]. by rewrite lookup_insert_ne.
Qed.

Lemma construction_leaves_the_store_intact_witness :
  let st := __init__ [report_pdf] None shared_heap in
  tables (heap st) !! 1%positive = Some {[ "converter" := 1%positive ]}
  ∧ dicts (heap st) = dicts shared_heap
  ∧ table st = default ∅ (table_at shared_heap <$> None)
  ∧ files (self st) = [report_pdf].
Proof.
  apply (construction_leaves_the_store_intact [report_pdf] None shared_heap
           1%positive).
  reflexivity.
Defined.

(** X17: a supplied table that holds an entry is shared: construction leaves
    the store as it is and takes the supplied reference; through any sequence
    of calls the tool keeps that reference, so the dictionary behind the
    caller's reference is the table the tool works on; and another tool built
    over the same reference reads the file of a routed delivery. *)
Theorem supplied_table_with_an_entry_is_shared
    (fs : list File) (h : Heap) (l : loc) (d : gmap string loc)
    (calls : list (gmap string PyVal)) :
  tables h !! l = Some d →
  d ≠ ∅ →
  let st := __init__ fs (Some l) h in
  heap st = h
  ∧ tool_file_map (self (invoke_all calls st)) = l
  ∧ table_at (heap (invoke_all calls st)) l = table (invoke_all calls st)
  ∧ ∀ tool_parameters f T P fs',
      routed_delivery (_invoke tool_parameters st) f T P →
      let st' := __init__ fs' (Some l) (heap (final (_invoke tool_parameters st))) in
      tool_file_map (self st') = l ∧ entry (table st') T P = Some f.
Proof.
  intros Hl Hd st.
  destruct (init_with_nonempty_table fs h l d Hl Hd) as [Hloc Hheap].
  fold st in Hloc, Hheap.
  split; [done|]. split; [by rewrite self_invoke_all|].
  split; [unfold table; by rewrite self_invoke_all, Hloc|].
  intros ps f T P fs' Hr st'.
  pose proof Hr as Hfin. apply routed_delivery_inv in Hfin as [Hfin _].
  destruct (tables (heap (final (_invoke ps st))) !! l) as [d'|] eqn:Hl'.
  2:{ exfalso. pose proof (refs_route_same T P f st) as Hrefs.
      unfold refs in Hrefs. rewrite self_route, Hloc, <- Hfin, Hl' in Hrefs.
      done. }
  assert (d' ≠ ∅) as Hne.
  { intros ->. pose proof (refs_route_same T P f st) as Hrefs.
    unfold refs in Hrefs. rewrite self_route, Hloc, <- Hfin, Hl' in Hrefs.
    done. }
  destruct (init_with_nonempty_table fs' _ l _ Hl' Hne) as [Hloc' Hheap'].
  fold st' in Hloc', Hheap'. split; [done|].
  unfold table. rewrite Hloc', Hheap', Hfin, <- Hloc, <- (self_route T P f st).
  apply entry_route_same.
Qed.

Lemma supplied_table_with_an_entry_is_shared_witness :
  let calls := [request "report.pdf" "summarizer" (Some "input_file")] in
  let st := __init__ [report_pdf] (Some 1%positive) shared_heap in
  heap st = shared_heap
  ∧ tool_file_map (self (invoke_all calls st)) = 1%positive
  ∧ table_at (heap (invoke_all calls st)) 1%positive
    = table (invoke_all calls st)
  ∧ ∀ tool_parameters f T P fs',
      routed_delivery (_invoke tool_parameters st) f T P →
      let st' := __init__ fs' (Some 1%positive)
                   (heap (final (_invoke tool_parameters st))) in
      tool_file_map (self st') = 1%positive ∧ entry (table st') T P = Some f.
Proof.
  apply (supplied_table_with_an_entry_is_shared [report_pdf] shared_heap
           1%positive {[ "converter" := 1%positive ]}
           [request "report.pdf" "summarizer" (Some "input_file")]).
  - reflexivity.
  - apply insert_non_empty.
Defined.

Lemma dispatch_without_failure_witness :
  ∃ f, file_map (self st0) !! Some "notes.txt" = Some f
       ∧ dispatch "notes.txt" " functions.converter" None st0
         = if bool_decide (" functions.converter" = "self")
           then mkRun [FileMessage (self_meta f)] (Value tt) st0
           else
             let T := normalize " functions.converter" in
             let P := strip (default "file" None) in
             mkRun (notes " functions.converter" ++ [FileMessage (tool_meta f T P)])
               (Value tt) (route T P f st0).
Proof.
  apply (dispatch_without_failure st0 "notes.txt" " functions.converter" None).
  vm_compute. reflexivity.
Defined.

(** ** The entity and the calls it describes *)

Lemma index_files_named (fs : list File) (f : File) :
  f ∈ fs →
  ∃ g, index_files fs !! filename f = Some g ∧ g ∈ fs ∧ filename g = filename f.
Proof.
  intros Hin. destruct (index_files fs !! filename f) as [g|] eqn:Hg.
  - exists g. split; [done|]. by apply index_files_elem.
  - rewrite index_files_lookup in Hg. apply last_None in Hg.
    assert (f ∈ named (filename f) fs) as Hf by (by apply list_elem_of_filter).
    rewrite Hg in Hf. by apply not_elem_of_nil in Hf.
Qed.

Lemma or_empty_nonempty (v : option string) :
  or_empty v ≠ "" → v = Some (or_empty v).
Proof.
  destruct v as [s|]; [|done]. unfold or_empty. by case_bool_decide.
Qed.

Lemma entity_file_id_options (this : FileDispatcherTool) :
  ∃ p, entity_parameter (_create_tool_entity this) "file_id" = Some p
       ∧ ToolParameter.options p = file_options (files this).
Proof. eexists. split; reflexivity. Qed.

(** X18: the options offered for [file_id] are the file ids a call accepts:
    one option per file of the sequence; an option whose value is not empty is
    resolved by the catalog, and the call with that value and target [self]
    delivers a file of the sequence with that filename; and every non-empty
    file id that the catalog resolves is the value of an option. *)
Theorem offered_file_ids_are_the_accepted_ones
    (fs : list File) (o : option loc) (h : Heap) :
  let st := __init__ fs o h in
  ∃ p, entity_parameter (_create_tool_entity (self st)) "file_id" = Some p
    ∧ length (ToolParameter.options p) = length fs
    ∧ (∀ opt, opt ∈ ToolParameter.options p →
         PluginParameterOption.value opt ≠ "" →
         ∃ f, f ∈ fs
              ∧ filename f = Some (PluginParameterOption.value opt)
              ∧ dispatch (PluginParameterOption.value opt) "self" None st
                = mkRun [FileMessage (self_meta f)] (Value tt) st)
    ∧ (∀ fileId f, fileId ≠ "" →
         file_map (self st) !! Some fileId = Some f →
         ∃ opt, opt ∈ ToolParameter.options p
                ∧ PluginParameterOption.value opt = fileId).
Proof.
  intros st.
  destruct (entity_file_id_options (self st)) as (p & Hp & Hopts).
  exists p. split; [done|]. rewrite Hopts.
  subst st. rewrite init_files, init_file_map. unfold file_options.
  split; [by rewrite length_fmap|]. split.
  - intros opt Hopt Hval.
    apply list_elem_of_fmap in Hopt as (f0 & -> & Hin).
    cbn [PluginParameterOption.value] in *.
    apply or_empty_nonempty in Hval as Hname.
    destruct (index_files_named fs f0 Hin) as (g & Hg & Hgin & Hgname).
    exists g. split; [done|]. split; [congruence|].
    rewrite dispatch_unfold. unfold dispatch_run.
    rewrite (bool_decide_eq_false_2 (or_empty (filename f0) = "")) by done.
    rewrite init_file_map, <- Hname, Hg. done.
  - intros fid f Hfid Hf. apply index_files_elem in Hf as [Hin Hname].
    eexists. split; [apply list_elem_of_fmap; by eexists|].
    cbn [PluginParameterOption.value]. rewrite Hname. unfold or_empty.
    by rewrite bool_decide_eq_false_2.
Qed.



(** X20: leaving [parameter_name] out is the same as passing the default that
    the entity declares for it: the two calls have the same run. *)
Theorem omitted_parameter_name_takes_the_declared_default
    (this : FileDispatcherTool) (p : ToolParameter.t)
    (tool_parameters : gmap string PyVal) (st : State) :
  entity_parameter (_create_tool_entity this) "parameter_name" = Some p →
  tool_parameters !! "parameter_name" = None →
  ∃ d, ToolParameter.default p = Some d
       ∧ _invoke tool_parameters st
         = _invoke (<["parameter_name" := VStr d]> tool_parameters) st.
Proof.
  intros [= <-] Hnone. eexists. split; [reflexivity|].
  rewrite !_invoke_unfold. unfold invoke_run, dict_get, dict_get_default.
  rewrite Hnone, lookup_insert_eq, !lookup_insert_ne by done. done.
Qed.

Lemma omitted_parameter_name_takes_the_declared_default_witness :
  ∃ d, Some "file" = Some d
       ∧ _invoke (request "report.pdf" "summarizer" None) st0
         = _invoke (<["parameter_name" := VStr d]>
                      (request "report.pdf" "summarizer" None)) st0.
Proof.
  destruct (entity_parameter (_create_tool_entity (self st0)) "parameter_name")
    as [p|] eqn:Hp; [|discriminate Hp].
  destruct (omitted_parameter_name_takes_the_declared_default
              (self st0) p (request "report.pdf" "summarizer" None) st0 Hp eq_refl)
    as (d & Hd & Hrun).
  injection Hp as <-. by exists d.
Defined.
